(** * FRUITPy: a shallow embedding of [FRUIT.py]

    The Python module parses Fortran test sources, renders a driver
    program, builds and runs it through a shell, and parses the captured
    output.

    Python byte strings are modelled as [string], Python integers as [Z],
    floats as IEEE 754 binary64 numbers ([spec_float]), lists as [list], an
    open file as the text that remains to be read, and the file system as a
    finite map from paths to contents.  A method that updates [self]
    returns the updated object.  The outcome of a call is a [result]: a
    value, an uncaught exception, or [OutOfFuel] when a [while] loop has
    not ended within the number of iterations it was given, so that a call
    that is [OutOfFuel] for every amount of fuel never returns.

    Definitions keep the names of the source.  The attribute
    [test_suite.success] is [suite_success] here, next to
    [test_result.success]; [test_module.__init__] and [test_suite.__init__]
    are [test_module_init] and [test_suite_init]. *)

From Stdlib Require Import ZArith List Ascii String Bool Lia SpecFloat.
From stdpp Require Import base option gmap strings.
Import ListNotations.

Local Open Scope string_scope.
Local Open Scope list_scope.
Local Open Scope Z_scope.

#[local] Arguments String.append !s1 s2 : simpl nomatch.

(** ** Python string primitives *)

Module Py.

(** The six characters that [str.strip], [str.split] and [str.isspace]
    treat as white space in Python 2: space, [\t], [\n], [\v], [\f], [\r]. *)
Definition isspace (c : ascii) : bool :=
  let n := nat_of_ascii c in
  (Nat.eqb n 32 || (Nat.leb 9 n && Nat.leb n 13))%bool.

Definition newline : ascii := ascii_of_nat 10.

Definition lower_char (c : ascii) : ascii :=
  let n := nat_of_ascii c in
  if (Nat.leb 65 n && Nat.leb n 90)%bool then ascii_of_nat (n + 32) else c.

(** [s.lower()], in the C locale: the letters [A] to [Z] only. *)
Fixpoint lower (s : string) : string :=
  match s with
  | EmptyString => EmptyString
  | String c s' => String (lower_char c) (lower s')
  end.

(** [s.startswith(p)] *)
Definition startswith (s p : string) : bool := String.prefix p s.

(** [sub in s] *)
Fixpoint contains (sub s : string) : bool :=
  if String.prefix sub s then true
  else match s with
       | EmptyString => false
       | String _ s' => contains sub s'
       end.

(** [s.find(sub)]: the index of the first occurrence, [-1] when absent. *)
Fixpoint find_nat (s sub : string) : option nat :=
  if String.prefix sub s then Some O
  else match s with
       | EmptyString => None
       | String _ s' => option_map S (find_nat s' sub)
       end.

Definition find (s sub : string) : Z :=
  match find_nat s sub with
  | Some n => Z.of_nat n
  | None => -1
  end.

Fixpoint take (n : nat) (s : string) : string :=
  match n, s with
  | S n', String c s' => String c (take n' s')
  | _, _ => EmptyString
  end.

Fixpoint drop (n : nat) (s : string) : string :=
  match n, s with
  | S n', String _ s' => drop n' s'
  | _, _ => s
  end.

(** A slice bound [i] is clipped the way Python does it: a negative bound
    counts from the end, and both ends saturate. *)
Definition clip (len : nat) (i : Z) : nat :=
  if i <? 0 then Z.to_nat (Z.max (Z.of_nat len + i) 0)
  else Nat.min (Z.to_nat i) len.

(** [s[i:]] *)
Definition slice_from (s : string) (i : Z) : string :=
  drop (clip (String.length s) i) s.

(** [s[:i]] *)
Definition slice_to (s : string) (i : Z) : string :=
  take (clip (String.length s) i) s.

Fixpoint lstrip (s : string) : string :=
  match s with
  | EmptyString => EmptyString
  | String c s' => if isspace c then lstrip s' else s
  end.

Fixpoint rstrip (s : string) : string :=
  match s with
  | EmptyString => EmptyString
  | String c s' =>
      match rstrip s' with
      | EmptyString => if isspace c then EmptyString else String c EmptyString
      | r => String c r
      end
  end.

(** [s.strip()] *)
Definition strip (s : string) : string := rstrip (lstrip s).

(** [s.split()] without arguments: maximal runs of non-blank characters.
    [cur] holds the characters of the token being read, reversed. *)
Fixpoint split_aux (cur : list ascii) (s : string) : list string :=
  match s with
  | EmptyString =>
      match cur with
      | [] => []
      | _ => [string_of_list_ascii (rev cur)]
      end
  | String c s' =>
      if isspace c then
        match cur with
        | [] => split_aux [] s'
        | _ => string_of_list_ascii (rev cur) :: split_aux [] s'
        end
      else split_aux (c :: cur) s'
  end.

Definition split (s : string) : list string := split_aux [] s.

(** [sep.join(l)] *)
Definition join (sep : string) (l : list string) : string := String.concat sep l.

(** [l[i]] on a list, with Python's negative indices; [None] stands for
    [IndexError]. *)
Definition index {A} (l : list A) (i : Z) : option A :=
  let len := Z.of_nat (List.length l) in
  if i <? 0 then
    if len + i <? 0 then None else nth_error l (Z.to_nat (len + i))
  else nth_error l (Z.to_nat i).

(** [l.index(x)]: position of the first element equal to [x]; [None]
    stands for [ValueError]. *)
Fixpoint list_index (l : list string) (x : string) : option nat :=
  match l with
  | [] => None
  | y :: l' => if String.eqb y x then Some O else option_map S (list_index l' x)
  end.

Definition is_digit (c : ascii) : bool :=
  let n := nat_of_ascii c in (Nat.leb 48 n && Nat.leb n 57)%bool.

Fixpoint digits_value (acc : Z) (s : string) : option Z :=
  match s with
  | EmptyString => Some acc
  | String c s' =>
      if is_digit c
      then digits_value (10 * acc + Z.of_nat (nat_of_ascii c - 48)) s'
      else None
  end.

Definition unsigned_value (s : string) : option Z :=
  match s with
  | EmptyString => None
  | _ => digits_value 0 s
  end.

(** [int(s)] on a string, base ten: surrounding blanks are dropped, one
    sign is allowed, at least one digit is required; [None] stands for
    [ValueError]. *)
Definition int (s : string) : option Z :=
  match strip s with
  | String "+" d => unsigned_value d
  | String "-" d => option_map Z.opp (unsigned_value d)
  | d => unsigned_value d
  end.

End Py.

(** ** Exceptions and unbounded loops *)

Inductive exn : Type :=
  | IndexError
  | ValueError
  | IOError
  | AttributeError
  | TypeError
  | ZeroDivisionError
  | OverflowError.

(** The outcome of running a piece of the program: a value, an uncaught
    exception, or a [while] loop that used up the steps it was given. *)
Inductive result (A : Type) : Type :=
  | Ok (a : A)
  | Raise (e : exn)
  | OutOfFuel.

Arguments Ok {A} a.
Arguments Raise {A} e.
Arguments OutOfFuel {A}.

Definition bind {A B} (r : result A) (k : A -> result B) : result B :=
  match r with
  | Ok a => k a
  | Raise e => Raise e
  | OutOfFuel => OutOfFuel
  end.

Notation "'do' x <- r ; k" := (bind r (fun x => k))
  (at level 10, x name, r at level 100, k at level 200).
Notation "'do' ' p <- r ; k" := (bind r (fun x => let 'p := x in k))
  (at level 10, p pattern, r at level 100, k at level 200).

(** [l[i]] or [IndexError]. *)
Definition getitem {A} (l : list A) (i : Z) : result A :=
  match Py.index l i with
  | Some a => Ok a
  | None => Raise IndexError
  end.

(** ** Files *)

(** An open text file is the text that has not been read yet. *)
Definition file : Type := string.

(** [f.readline()]: the next line with its newline, and the file after it;
    the empty string at the end of the file, as often as it is asked. *)
Fixpoint readline (f : file) : string * file :=
  match f with
  | EmptyString => (EmptyString, EmptyString)
  | String c f' =>
      if Ascii.eqb c Py.newline then (String c EmptyString, f')
      else let '(l, r) := readline f' in (String c l, r)
  end.

(** [f.readlines()]; [cur] holds the line being read, reversed. *)
Fixpoint readlines_aux (cur : list ascii) (f : file) : list string :=
  match f with
  | EmptyString =>
      match cur with
      | [] => []
      | _ => [string_of_list_ascii (rev cur)]
      end
  | String c f' =>
      if Ascii.eqb c Py.newline
      then string_of_list_ascii (rev (c :: cur)) :: readlines_aux [] f'
      else readlines_aux (c :: cur) f'
  end.

Definition readlines (f : file) : list string := readlines_aux [] f.

(** The file system: the regular files and their contents. *)
Abbreviation filesystem := (gmap string string).

(** [open(path)] for reading. *)
Definition open (fs : filesystem) (path : string) : result file :=
  match fs !! path with
  | Some content => Ok content
  | None => Raise IOError
  end.

(** ** The source scanner: [test_subroutine] and [test_module] *)

Record test_subroutine : Type := mk_test_subroutine {
  name : string;
  description : string
}.

(** The attributes [parse_subroutines] creates and [parse_subroutine]
    updates. *)
Record subroutine_state : Type := mk_subroutine_state {
  st_setup : bool;
  st_teardown : bool;
  st_subroutines : list test_subroutine
}.

Record test_module : Type := mk_test_module {
  test_filename : string;
  test_module_name : string;
  setup : bool;
  teardown : bool;
  subroutines : list test_subroutine
}.

(** [while 'module' not in line.lower(): line = f.readline()] *)
Fixpoint module_line_loop (fuel : nat) (line : string) (f : file)
  : result (string * file) :=
  match fuel with
  | O => OutOfFuel
  | S fuel' =>
      if negb (Py.contains "module" (Py.lower line))
      then let '(line', f') := readline f in module_line_loop fuel' line' f'
      else Ok (line, f)
  end.

(** [test_module.parse_test_module_name]: the name and the file after the
    module line. *)
Definition parse_test_module_name (fuel : nat) (f : file)
  : result (string * file) :=
  let '(line, f) := readline f in
  do '(line, f) <- module_line_loop fuel line f ;
  let imod := Py.find line "module" in
  do name <- getitem (Py.split (Py.strip (Py.slice_from line imod))) 1 ;
  Ok (name, f).

Inductive subtype : Type := Setup | Teardown | Test.

(** [test_module.subroutine_type] *)
Definition subroutine_type (name : string) : option subtype :=
  let lowername := Py.lower name in
  if String.eqb lowername "setup" then Some Setup
  else if String.eqb lowername "teardown" then Some Teardown
  else if Py.startswith lowername "test_" then Some Test
  else None.

(** Lines 71 to 76 of [parse_subroutine]: whether the line is taken as a
    declaration, and the name it declares. *)
Definition subroutine_declaration (line : string) : result (option string) :=
  let isub := Py.find (Py.lower line) "subroutine" in
  let pre := Py.slice_to line isub in
  if (negb (Py.contains "!" pre) && negb (Py.contains "end" (Py.lower pre)))%bool
  then
    do subname <- getitem (Py.split (Py.strip (Py.slice_from line isub))) 1 ;
    let bracpos := Py.find subname "(" in
    let subname := if 0 <=? bracpos then Py.slice_to subname bracpos else subname in
    Ok (Some subname)
  else Ok None.

(** [while not line.strip(): line = f.readline()] *)
Fixpoint blank_line_loop (fuel : nat) (line : string) (f : file)
  : result (string * file) :=
  match fuel with
  | O => OutOfFuel
  | S fuel' =>
      if String.eqb (Py.strip line) ""
      then let '(line', f') := readline f in blank_line_loop fuel' line' f'
      else Ok (line, f)
  end.

(** Lines 77 to 88 of [parse_subroutine]: what is done with a declared
    name. *)
Definition register_subroutine (fuel : nat) (f : file) (subname : string)
    (st : subroutine_state) : result (subroutine_state * file) :=
  match subroutine_type subname with
  | Some Test =>
      let '(line, f) := readline f in
      do '(line, f) <- blank_line_loop fuel line f ;
      let comment_pos := Py.find line "!" in
      let description :=
        if 0 <=? comment_pos then Py.strip (Py.slice_from line (comment_pos + 1))
        else subname in
      let sub := mk_test_subroutine subname description in
      Ok (mk_subroutine_state (st_setup st) (st_teardown st)
            (st_subroutines st ++ [sub]), f)
  | Some Setup =>
      Ok (mk_subroutine_state true (st_teardown st) (st_subroutines st), f)
  | Some Teardown =>
      Ok (mk_subroutine_state (st_setup st) true (st_subroutines st), f)
  | None => Ok (st, f)
  end.

(** [test_module.parse_subroutine] *)
Definition parse_subroutine (fuel : nat) (f : file) (line : string)
    (st : subroutine_state) : result (subroutine_state * file) :=
  do decl <- subroutine_declaration line ;
  match decl with
  | Some subname => register_subroutine fuel f subname st
  | None => Ok (st, f)
  end.

(** The [while line:] loop of [parse_subroutines]. *)
Fixpoint subroutines_loop (fuel : nat) (line : string) (f : file)
    (st : subroutine_state) : result subroutine_state :=
  match fuel with
  | O => OutOfFuel
  | S fuel' =>
      if String.eqb line "" then Ok st
      else
        do '(st, f) <- (if Py.contains "subroutine" (Py.lower line)
                     then parse_subroutine fuel' f line st
                     else Ok (st, f)) ;
        let '(line', f') := readline f in
        subroutines_loop fuel' line' f' st
  end.

(** [test_module.parse_subroutines] *)
Definition parse_subroutines (fuel : nat) (f : file) : result subroutine_state :=
  let st := mk_subroutine_state false false [] in
  let '(line, f) := readline f in
  subroutines_loop fuel line f st.

(** [test_module.__init__] with [test_module.parse]. *)
Definition test_module_init (fuel : nat) (fs : filesystem)
    (test_filename : string) : result test_module :=
  do f <- open fs test_filename ;
  do '(modname, f) <- parse_test_module_name fuel f ;
  do st <- parse_subroutines fuel f ;
  Ok (mk_test_module test_filename modname
        (st_setup st) (st_teardown st) (st_subroutines st)).

(** ** [test_result] *)

Record test_result : Type := mk_test_result {
  success : Z;
  total : Z
}.

(** Python floats are IEEE 754 binary64 numbers. *)
Definition float : Type := spec_float.
Definition prec : Z := 53.
Definition emax : Z := 1024.

(** [float(n)] on an integer: the nearest double, ties to even, and
    [OverflowError] when that is out of range. *)
Definition float_of_int (n : Z) : result float :=
  match binary_normalize prec emax n 0 false with
  | S754_infinity _ => Raise OverflowError
  | x => Ok x
  end.

Definition float_is_zero (x : float) : bool :=
  match x with
  | S754_zero _ => true
  | _ => false
  end.

(** [x / y] on floats. *)
Definition float_div (x y : float) : result float :=
  if float_is_zero y then Raise ZeroDivisionError
  else Ok (SFdiv prec emax x y).

(** [x * y] on floats. *)
Definition float_mul (x y : float) : float := SFmul prec emax x y.

(** The literals [100.] and [0.0]. *)
Definition float_100 : float := binary_normalize prec emax 100 0 false.
Definition float_0 : float := S754_zero false.

(** [test_result.get_percent] *)
Definition get_percent (r : test_result) : result float :=
  match
    (do s <- float_of_int (success r) ;
     do t <- float_of_int (total r) ;
     do q <- float_div s t ;
     Ok (float_mul q float_100))
  with
  | Raise ZeroDivisionError => Ok float_0
  | res => res
  end.

(** ** [test_suite] *)

Record test_suite : Type := mk_test_suite {
  test_filenames : list string;
  test_modules : list test_module;
  driver : option string;
  exe : option string;
  asserts : test_result;
  cases : test_result;
  outputfile : option string;
  output_lines : option (list string);
  suite_success : option bool;
  messages : option (list string)
}.

(** What [test_suite(...)] may be given: one path or a list of paths. *)
Inductive filenames_arg : Type :=
  | PyStr (s : string)
  | PyList (l : list string).

(** [test_suite.parse]: the [for] loop over the file names. *)
Fixpoint parse (fuel : nat) (fs : filesystem) (filenames : list string)
    (test_modules : list test_module) : result (list test_module) :=
  match filenames with
  | [] => Ok test_modules
  | test_filename :: rest =>
      do md <- test_module_init fuel fs test_filename ;
      parse fuel fs rest (test_modules ++ [md])
  end.

(** [test_suite.__init__] *)
Definition test_suite_init (fuel : nat) (fs : filesystem)
    (test_filenames : filenames_arg) : result test_suite :=
  let test_filenames :=
    match test_filenames with
    | PyStr s => [s]
    | PyList l => l
    end in
  do mods <- parse fuel fs test_filenames [] ;
  Ok (mk_test_suite test_filenames mods None None
        (mk_test_result 0 0) (mk_test_result 0 0) None None None None).

Definition get_num_test_modules (s : test_suite) : Z :=
  Z.of_nat (List.length (test_modules s)).

Definition get_setup (s : test_suite) : bool :=
  existsb setup (test_modules s).

Definition get_teardown (s : test_suite) : bool :=
  existsb teardown (test_modules s).

(** The double quote character, as a string. *)
Definition dquote : string := String (ascii_of_nat 34) EmptyString.

(** [test_suite.get_driver_lines] *)
Definition get_driver_lines (s : test_suite) : list string :=
  let mods := test_modules s in
  ["program tests"; ""; "  ! Driver program for FRUIT unit tests in:"]
  ++ map (fun md => "  ! " +:+ Py.strip (test_filename md)) mods
  ++ [""; "  ! Generated by FRUITPy."; ""; "  use fruit"]
  ++ map (fun md => "  use " +:+ test_module_name md) mods
  ++ [""; "  call init_fruit"]
  ++ (if get_setup s then ["  call setup"] else [])
  ++ [""]
  ++ flat_map (fun md =>
       (if 1 <? get_num_test_modules s
        then ["  ! " +:+ Py.strip (test_filename md) +:+ ":"] else [])
       ++ map (fun sub =>
            "  call run_test_case(" +:+ name sub +:+ "," +:+ dquote
              +:+ description sub +:+ dquote +:+ ")")
            (subroutines md)
       ++ [""]) mods
  ++ (if get_teardown s then ["  call teardown"] else [])
  ++ ["  call fruit_summary"; "  call fruit_finalize"; ""; "end program tests"].

(** ** The outside world *)

(** What the program reads from its platform and what it cannot see into:
    [sys.platform], [os.name], [os.path.splitext], what running a shell
    command does to the files, and which paths can be opened for writing
    (a path that names a directory, or lies in a directory that does not
    exist, cannot). *)
Record environment : Type := mk_environment {
  platform : string;
  os_name : string;
  splitext : string -> string * string;
  shell : string -> filesystem -> filesystem;
  writable : string -> bool
}.

(** The files, and the shell commands run so far, oldest first. *)
Record world : Type := mk_world {
  files : filesystem;
  calls : list string
}.

(** [os.path.isfile] *)
Definition isfile (w : world) (path : string) : bool :=
  bool_decide (is_Some (files w !! path)).

(** [os.remove] *)
Definition remove (w : world) (path : string) : world :=
  mk_world (delete path (files w)) (calls w).

(** [subprocess.call(cmd, shell = True)] *)
Definition call (env : environment) (w : world) (cmd : string) : world :=
  mk_world (shell env cmd (files w)) (calls w ++ [cmd]).

Definition set_driver (s : test_suite) (d : string) : test_suite :=
  mk_test_suite (test_filenames s) (test_modules s) (Some d) (exe s)
    (asserts s) (cases s) (outputfile s) (output_lines s)
    (suite_success s) (messages s).

Definition set_exe (s : test_suite) (e : string) : test_suite :=
  mk_test_suite (test_filenames s) (test_modules s) (driver s) (Some e)
    (asserts s) (cases s) (outputfile s) (output_lines s)
    (suite_success s) (messages s).

Definition set_outputfile (s : test_suite) (o : string) : test_suite :=
  mk_test_suite (test_filenames s) (test_modules s) (driver s) (exe s)
    (asserts s) (cases s) (Some o) (output_lines s)
    (suite_success s) (messages s).

Definition set_output_lines (s : test_suite) (l : list string) : test_suite :=
  mk_test_suite (test_filenames s) (test_modules s) (driver s) (exe s)
    (asserts s) (cases s) (outputfile s) (Some l)
    (suite_success s) (messages s).

Definition set_success (s : test_suite) (b : bool) : test_suite :=
  mk_test_suite (test_filenames s) (test_modules s) (driver s) (exe s)
    (asserts s) (cases s) (outputfile s) (output_lines s)
    (Some b) (messages s).

Definition set_messages (s : test_suite) (l : list string) : test_suite :=
  mk_test_suite (test_filenames s) (test_modules s) (driver s) (exe s)
    (asserts s) (cases s) (outputfile s) (output_lines s)
    (suite_success s) (Some l).

Definition set_asserts (s : test_suite) (r : test_result) : test_suite :=
  mk_test_suite (test_filenames s) (test_modules s) (driver s) (exe s)
    r (cases s) (outputfile s) (output_lines s)
    (suite_success s) (messages s).

Definition set_cases (s : test_suite) (r : test_result) : test_suite :=
  mk_test_suite (test_filenames s) (test_modules s) (driver s) (exe s)
    (asserts s) r (outputfile s) (output_lines s)
    (suite_success s) (messages s).

(** Reading an attribute that may not have been set yet. *)
Definition getattr {A} (o : option A) : result A :=
  match o with
  | Some a => Ok a
  | None => Raise AttributeError
  end.

(** [open(path, 'w')] followed by [f.write(text)] and [f.close()]:
    [IOError] for the empty path and for a path that cannot be opened for
    writing. *)
Definition write_file (env : environment) (w : world) (path text : string)
  : result world :=
  if (negb (String.eqb path "") && writable env path)%bool
  then Ok (mk_world (<[path := text]> (files w)) (calls w))
  else Raise IOError.

(** [test_suite.write] *)
Definition write (env : environment) (s : test_suite) (w : world)
    (driver : string) : result (test_suite * world) :=
  let s := set_driver s driver in
  do w <- write_file env w driver
            (Py.join (String Py.newline EmptyString) (get_driver_lines s)) ;
  Ok (s, w).

(** [test_suite.build] *)
Definition build (env : environment) (s : test_suite) (w : world)
    (build_command : string) : result (bool * test_suite * world) :=
  do d <- getattr (driver s) ;
  let '(e, ext) := splitext env d in
  let e := if String.eqb (platform env) "win32" then e +:+ ".exe" else e in
  let s := set_exe s e in
  let w := if isfile w e then remove w e else w in
  let w := call env w build_command in
  Ok (isfile w e, s, w).

(** [test_suite.get_output_lines] *)
Definition get_output_lines (s : test_suite) (w : world) : result test_suite :=
  do o <- getattr (outputfile s) ;
  match files w !! o with
  | Some content => Ok (set_output_lines s (readlines content))
  | None => Ok (set_output_lines s [])
  end.

(** [test_suite.get_success] *)
Definition get_success (s : test_suite) : result test_suite :=
  do lines <- getattr (output_lines s) ;
  Ok (set_success s (existsb (Py.contains "SUCCESSFUL!") lines)).

(** The inner [for j] loop of [get_messages], over the lines after the
    header. *)
Fixpoint collect_messages (rest : list string) : list string :=
  match rest with
  | [] => []
  | msg :: rest' =>
      if Py.contains "end of failed assertion messages." msg then []
      else Py.strip msg :: collect_messages rest'
  end.

(** The outer [for i] loop of [get_messages]. *)
Fixpoint scan_messages (lines : list string) : list string :=
  match lines with
  | [] => []
  | line :: rest =>
      if Py.contains "Failed assertion messages:" line
      then collect_messages rest
      else scan_messages rest
  end.

(** [test_suite.get_messages] *)
Definition get_messages (s : test_suite) : result test_suite :=
  do ok <- getattr (suite_success s) ;
  if negb ok then
    do lines <- getattr (output_lines s) ;
    Ok (set_messages s (scan_messages lines))
  else Ok (set_messages s []).

(** [int(s)] or [ValueError]. *)
Definition to_int (s : string) : result Z :=
  match Py.int s with
  | Some n => Ok n
  | None => Raise ValueError
  end.

(** [test_suite.parse_summary_line] *)
Definition parse_summary_line (line : string) : result (Z * Z) :=
  let items := Py.split line in
  do r <- match Py.list_index (rev items) "/" with
          | Some r => Ok r
          | None => Raise ValueError
          end ;
  let slashpos := - (Z.of_nat r + 1) in
  do a <- getitem items (slashpos - 1) ;
  do a <- to_int a ;
  do b <- getitem items (slashpos + 1) ;
  do b <- to_int b ;
  Ok (a, b).

(** The [for] loop of [get_statistics]; [lines] are the lines from index
    [i] on. *)
Fixpoint statistics_loop (lines : list string) (s : test_suite)
  : result test_suite :=
  match lines with
  | [] => Ok s
  | line :: rest =>
      if Py.contains "Successful asserts / total asserts" line then
        do '(a, b) <- parse_summary_line line ;
        let s := set_asserts s (mk_test_result a b) in
        do next <- getitem rest 0 ;
        do '(c, d) <- parse_summary_line next ;
        let s := set_cases s (mk_test_result c d) in
        statistics_loop rest s
      else statistics_loop rest s
  end.

(** [test_suite.get_statistics] *)
Definition get_statistics (s : test_suite) : result test_suite :=
  do lines <- getattr (output_lines s) ;
  statistics_loop lines s.

(** [test_suite.parse_output_file] *)
Definition parse_output_file (s : test_suite) (w : world) : result test_suite :=
  do s <- get_output_lines s w ;
  do s <- get_success s ;
  do s <- get_messages s ;
  get_statistics s.

(** [test_suite.run] *)
Definition run (env : environment) (s : test_suite) (w : world)
  : result (bool * test_suite * world) :=
  let run := exe s in
  do run <- (if String.eqb (os_name env) "posix"
             then match run with
                  | Some r => Ok (Some ("./" +:+ r))
                  | None => Raise TypeError
                  end
             else Ok run) ;
  do d <- getattr (driver s) ;
  let '(basename, ext) := splitext env d in
  let o := basename +:+ ".out" in
  let s := set_outputfile s o in
  do run <- match run with
            | Some r => Ok (r +:+ " > " +:+ o)
            | None => Raise TypeError
            end ;
  let w := call env w run in
  do s <- parse_output_file s w ;
  do ok <- getattr (suite_success s) ;
  Ok (ok, s, w).

(** [test_suite.build_run] *)
Definition build_run (env : environment) (s : test_suite) (w : world)
    (driver build_command : string) : result (bool * test_suite * world) :=
  if 0 <? get_num_test_modules s then
    do '(s, w) <- write env s w driver ;
    do '(built, s, w) <- build env s w build_command ;
    if built then run env s w else Ok (false, s, w)
  else Ok (false, s, w).

(** ** Notions the specification uses *)

(** [sub] occurs in [s] at offset [n]. *)
Definition occurs_at (sub s : string) (n : nat) : bool :=
  String.prefix sub (Py.drop n s).

(** The first occurrence of [sub] in [s] is at offset [n]. *)
Definition first_occurrence_at (sub s : string) (n : nat) : bool :=
  (occurs_at sub s n
   && forallb (fun k => negb (occurs_at sub s k)) (seq 0 n))%bool.

(** The token that follows the first occurrence of [module], in any case,
    in a line: the second token from that occurrence on. *)
Definition token_after_module (line : string) : option string :=
  match Py.find_nat (Py.lower line) "module" with
  | Some n => nth_error (Py.split (Py.drop n line)) 1
  | None => None
  end.

(** A line without [module], in small or capital letters. *)
Definition no_module (line : string) : Prop :=
  Py.contains "module" (Py.lower line) = false.

(** The part of a token before its first opening bracket. *)
Fixpoint before_bracket (s : string) : string :=
  match s with
  | EmptyString => EmptyString
  | String c s' =>
      if Ascii.eqb c "("%char then EmptyString else String c (before_bracket s')
  end.

(** The text after the first exclamation mark. *)
Fixpoint after_comment_mark (s : string) : string :=
  match s with
  | EmptyString => EmptyString
  | String c s' => if Ascii.eqb c "!"%char then s' else after_comment_mark s'
  end.

(** Nothing but white space, possibly nothing at all. *)
Fixpoint all_space (s : string) : bool :=
  match s with
  | EmptyString => true
  | String c s' => (Py.isspace c && all_space s')%bool
  end.

(** A suite without test cases: no module has a test subroutine. *)
Definition no_test_cases (s : test_suite) : Prop :=
  Forall (fun md => subroutines md = []) (test_modules s).

(** Lines that are neither the header nor the closing line of the block of
    failure messages. *)
Definition no_header (line : string) : Prop :=
  Py.contains "Failed assertion messages:" line = false.

Definition no_closing (line : string) : Prop :=
  Py.contains "end of failed assertion messages." line = false.

(** A line that is not the header of the statistics. *)
Definition no_statistics (line : string) : Prop :=
  Py.contains "Successful asserts / total asserts" line = false.

(** The summary a line carries: the integers around the last token that is
    a slash on its own. *)
Definition summary_of (line : string) (x y : Z) : Prop :=
  exists before a b after,
    Py.split line = before ++ a :: "/" :: b :: after /\
    ~ In "/" (b :: after) /\
    Py.int a = Some x /\ Py.int b = Some y.

(** ** Concrete inputs *)

Definition nl : string := String Py.newline EmptyString.

(** The scanner scenario of the specification. *)
Definition scenario_source : string :=
  "module foo_test" +:+ nl +:+ "subroutine test_alpha()" +:+ nl +:+ nl
  +:+ "! checks alpha" +:+ nl.

(** A source file without a module line. *)
Definition no_module_source : string :=
  "program hello" +:+ nl +:+ "end program hello" +:+ nl.

(** A module line in capitals, and one whose module name contains the
    word in small letters. *)
Definition upper_module_line : string := "MODULE foo" +:+ nl.
Definition mixed_module_line : string := "MODULE test_module ! my tests" +:+ nl.

(** A declaration of a test subroutine, and the text that follows it. *)
Definition sample_declaration : string :=
  "  Subroutine Test_alpha(x) ! first" +:+ nl.

Definition sample_body : file :=
  nl +:+ "   " +:+ nl +:+ "  ! checks alpha " +:+ nl +:+ "  call check(x)" +:+ nl.

(** A source file that ends with the declaration of a test subroutine. *)
Definition truncated_source : string :=
  "module m" +:+ nl +:+ "subroutine test_a" +:+ nl.

(** A source file with a module and no subroutine, and its suite: one
    module, no test case. *)
Definition empty_module_source : string :=
  "module empty" +:+ nl +:+ "end module empty" +:+ nl.

Definition empty_module_fs : filesystem :=
  {[ "empty.f90" := empty_module_source ]}.

Definition empty_module_suite : test_suite :=
  mk_test_suite ["empty.f90"]
    [mk_test_module "empty.f90" "empty" false false []]
    None None (mk_test_result 0 0) (mk_test_result 0 0) None None None None.

(** The suite of no file at all. *)
Definition no_modules_suite : test_suite :=
  mk_test_suite [] [] None None (mk_test_result 0 0) (mk_test_result 0 0)
    None None None None.

(** Two sources with one test case each. *)
Definition two_files : filesystem :=
  {[ "a.f90" := "module a" +:+ nl +:+ " subroutine setup" +:+ nl
                +:+ " end subroutine setup" +:+ nl
                +:+ " subroutine test_one" +:+ nl +:+ "  ! first" +:+ nl;
     "b.f90" := "module b" +:+ nl +:+ " subroutine test_two(x)" +:+ nl
                +:+ "  call check(x)" +:+ nl ]}.

(** [os.path.splitext] on paths without directories: split at the last
    dot, unless the name starts with it. *)
Fixpoint last_dot (s : string) : option nat :=
  match s with
  | EmptyString => None
  | String c s' =>
      match last_dot s' with
      | Some n => Some (S n)
      | None => if Ascii.eqb c "."%char then Some O else None
      end
  end.

Definition simple_splitext (p : string) : string * string :=
  match last_dot p with
  | Some (S n) => (Py.take (S n) p, Py.drop (S n) p)
  | _ => (p, EmptyString)
  end.

(** A working directory without subdirectories: a path can be opened for
    writing when it holds no slash. *)
Definition plain_name (path : string) : bool :=
  negb (Py.contains "/" path).

(** A shell in which [make] produces the executable and the executable
    reports success. *)
Definition working_shell (cmd : string) (fs : filesystem) : filesystem :=
  if String.eqb cmd "make" then <[ "driver" := "binary" ]> fs
  else if String.eqb cmd "./driver > driver.out"
       then <[ "driver.out" := " SUCCESSFUL!" +:+ nl ]> fs
       else fs.

Definition posix_env : environment :=
  mk_environment "linux2" "posix" simple_splitext working_shell plain_name.

(** The output of a failed run, and the suite that has read it. *)
Definition failed_output : list string :=
  [" Some tests failed!" +:+ nl;
   "  -- Failed assertion messages:" +:+ nl;
   "   msgA" +:+ nl;
   "   msgB  " +:+ nl;
   "  -- end of failed assertion messages." +:+ nl;
   "  -- Failed assertion messages:" +:+ nl;
   "   msgC" +:+ nl;
   "  -- end of failed assertion messages." +:+ nl].

Definition failed_suite : test_suite :=
  mk_test_suite [] [] None None (mk_test_result 0 0) (mk_test_result 0 0)
    (Some "driver.out") (Some failed_output) (Some false) None.

(** The output of a successful run, and the suite that has read it. *)
Definition passed_output : list string :=
  ["x SUCCESSFUL! y" +:+ nl;
   "Successful asserts / total asserts : 9 / 10" +:+ nl;
   "Successful cases / total cases : 3 / 4" +:+ nl].

Definition passed_suite : test_suite :=
  mk_test_suite [] [] None None (mk_test_result 0 0) (mk_test_result 0 0)
    (Some "driver.out") (Some passed_output) (Some true) (Some []).

(** ** The rest of [test_suite] *)

(** [test_suite.get_output] *)
Definition get_output (s : test_suite) : result string :=
  do lines <- getattr (output_lines s) ;
  Ok (Py.join "" lines).

(** ** Further notions and inputs *)

(** A last line that ends every search of the scanner: it is not blank
    and does not mention [subroutine]. *)
Definition closing_line (line : string) : Prop :=
  all_space line = false /\ Py.contains "subroutine" (Py.lower line) = false.

(** A test subroutine as the scanner registers it: the name classifies as
    a test and holds no opening bracket. *)
Definition well_named (sub : test_subroutine) : Prop :=
  subroutine_type (name sub) = Some Test /\ Py.contains "(" (name sub) = false.

(** The line of the driver that runs one test case. *)
Definition run_test_case_line (sub : test_subroutine) : string :=
  "  call run_test_case(" +:+ name sub +:+ "," +:+ dquote
    +:+ description sub +:+ dquote +:+ ")".

Definition is_run_test_case (line : string) : bool :=
  String.prefix "  call run_test_case(" line.

(** The command that [run] hands to the shell. *)
Definition run_command (env : environment) (e o : string) : string :=
  (if String.eqb (os_name env) "posix" then "./" +:+ e else e)
    +:+ " > " +:+ o.

(** The path of the executable that [build] looks for. *)
Definition exe_path (env : environment) (d : string) : string :=
  if String.eqb (platform env) "win32"
  then fst (splitext env d) +:+ ".exe"
  else fst (splitext env d).

(** A shell that does nothing. *)
Definition idle_shell (cmd : string) (fs : filesystem) : filesystem := fs.

Definition idle_env : environment :=
  mk_environment "linux2" "posix" simple_splitext idle_shell plain_name.

(** The suite of the two sources [a.f90] and [b.f90]. *)
Definition two_files_suite : test_suite :=
  mk_test_suite ["a.f90"; "b.f90"]
    [mk_test_module "a.f90" "a" true false
       [mk_test_subroutine "test_one" "first"];
     mk_test_module "b.f90" "b" false false
       [mk_test_subroutine "test_two" "test_two"]]
    None None (mk_test_result 0 0) (mk_test_result 0 0) None None None None.

(** A text without a newline. *)
Fixpoint newline_free (s : string) : bool :=
  match s with
  | EmptyString => true
  | String c s' => (negb (Ascii.eqb c Py.newline) && newline_free s')%bool
  end.

(** A suite that is about to read its output file. *)
Definition awaiting_suite : test_suite :=
  mk_test_suite [] [] (Some "driver.f90") (Some "driver")
    (mk_test_result 0 0) (mk_test_result 0 0) (Some "driver.out")
    None None None.

(** A world with an executable left by an earlier build. *)
Definition stale_world : world :=
  mk_world {[ "driver" := "old binary" ]} [].

(** A suite whose output stops at the header of the statistics. *)
Definition cut_output_suite : test_suite :=
  mk_test_suite [] [] None None (mk_test_result 0 0) (mk_test_result 0 0)
    (Some "driver.out")
    (Some ["x SUCCESSFUL! y" +:+ nl;
           "Successful asserts / total asserts : 9 / 10" +:+ nl])
    (Some true) (Some []).

(** The lines of the driver that import a module. *)
Definition is_use (line : string) : bool := String.prefix "  use " line.

(** The path of the output file of [run]. *)
Definition output_path (env : environment) (d : string) : string :=
  fst (splitext env d) +:+ ".out".

(** A suite that has been written and built, and the world after a
    successful build. *)
Definition built_suite : test_suite :=
  mk_test_suite ["a.f90"; "b.f90"]
    [mk_test_module "a.f90" "a" true false
       [mk_test_subroutine "test_one" "first"];
     mk_test_module "b.f90" "b" false false
       [mk_test_subroutine "test_two" "test_two"]]
    (Some "driver.f90") (Some "driver")
    (mk_test_result 0 0) (mk_test_result 0 0) None None None None.

(** A shell in which [make] produces the executable and the executable
    writes the output of a successful run. *)
Definition passing_shell (cmd : string) (fs : filesystem) : filesystem :=
  if String.eqb cmd "make" then <[ "driver" := "binary" ]> fs
  else if String.eqb cmd "./driver > driver.out"
       then <[ "driver.out" := String.concat "" passed_output ]> fs
       else fs.

Definition passing_env : environment :=
  mk_environment "linux2" "posix" simple_splitext passing_shell plain_name.

(** The files as [build_run] leaves them for the run when the driver can
    be written: the driver written, an old executable removed, the build
    command run. *)
Definition files_after_build (env : environment) (s : test_suite) (w : world)
    (d build_command : string) : filesystem :=
  shell env build_command
    (delete (exe_path env d)
       (<[d := Py.join (String Py.newline EmptyString)
                 (get_driver_lines (set_driver s d))]> (files w))).

(** * Properties *)

(** ** Strings *)

Lemma append_empty_r (s : string) : s +:+ "" = s.
Proof. induction s as [|c s IH]; simpl; [reflexivity | now rewrite IH]. Qed.

Lemma append_assoc (a b c : string) : (a +:+ b) +:+ c = a +:+ (b +:+ c).
Proof. induction a as [|x a IH]; simpl; [reflexivity | now rewrite IH]. Qed.

Lemma lower_append (a b : string) :
  Py.lower (a +:+ b) = Py.lower a +:+ Py.lower b.
Proof. induction a as [|c a IH]; simpl; [reflexivity | now rewrite IH]. Qed.

Lemma lower_length (s : string) : String.length (Py.lower s) = String.length s.
Proof. induction s as [|c s IH]; simpl; [reflexivity | now rewrite IH]. Qed.

Lemma prefix_empty (s : string) : String.prefix "" s = true.
Proof. now destruct s. Qed.

Lemma prefix_append (p a b : string) :
  String.prefix p a = true -> String.prefix p (a +:+ b) = true.
Proof.
  revert a; induction p as [|c p IH]; intros a H;
    [destruct (a +:+ b); reflexivity|].
  destruct a as [|x a]; simpl in *; [discriminate|].
  destruct (ascii_dec c x); [auto | discriminate].
Qed.

Lemma contains_append_l (sub a b : string) :
  Py.contains sub a = true -> Py.contains sub (a +:+ b) = true.
Proof.
  induction a as [|x a IH]; intros H.
  - destruct sub as [|c sub]; [destruct b; reflexivity | discriminate].
  - cbn [Py.contains] in H. cbn [append Py.contains].
    destruct (String.prefix sub (String x a)) eqn:E.
    + change (String x (a +:+ b)) with (String x a +:+ b).
      now rewrite (prefix_append _ _ b E).
    + rewrite (IH H). now destruct (String.prefix sub (String x (a +:+ b))).
Qed.

Lemma contains_append_r (sub a b : string) :
  Py.contains sub b = true -> Py.contains sub (a +:+ b) = true.
Proof.
  intros H. induction a as [|x a IH]; [exact H|].
  cbn [append Py.contains]. rewrite IH.
  now destruct (String.prefix sub (String x (a +:+ b))).
Qed.

Lemma contains_append_false (sub a b : string) :
  Py.contains sub (a +:+ b) = false ->
  Py.contains sub a = false /\ Py.contains sub b = false.
Proof.
  intros H; split.
  - destruct (Py.contains sub a) eqn:E; [|reflexivity].
    now rewrite (contains_append_l _ _ b E) in H.
  - destruct (Py.contains sub b) eqn:E; [|reflexivity].
    now rewrite (contains_append_r _ a _ E) in H.
Qed.

Lemma string_of_list_ascii_app (a b : list ascii) :
  string_of_list_ascii (a ++ b)
  = string_of_list_ascii a +:+ string_of_list_ascii b.
Proof. induction a as [|c a IH]; cbn; [reflexivity | now rewrite IH]. Qed.

(** ** Searching and slicing *)

Lemma find_nat_here (s sub : string) :
  String.prefix sub s = true -> Py.find_nat s sub = Some O.
Proof. intros H. destruct s; cbn [Py.find_nat]; now rewrite H. Qed.

Lemma find_nat_later (c : ascii) (s sub : string) :
  String.prefix sub (String c s) = false ->
  Py.find_nat (String c s) sub = option_map S (Py.find_nat s sub).
Proof. intros H. cbn [Py.find_nat]. now rewrite H. Qed.

Lemma forallb_seq_shift (p : nat -> bool) (n : nat) :
  forallb p (seq 1 n) = forallb (fun k => p (S k)) (seq 0 n).
Proof.
  rewrite <- seq_shift. induction (seq 0 n) as [|k l IH]; [reflexivity|].
  cbn [List.map forallb]. now rewrite IH.
Qed.

Lemma first_occurrence_find (sub : string) (n : nat) : forall s,
  first_occurrence_at sub s n = true -> Py.find_nat s sub = Some n.
Proof.
  unfold first_occurrence_at, occurs_at.
  induction n as [|n IH]; intros s [Ho Hf]%andb_prop.
  - now apply find_nat_here.
  - cbn [seq forallb] in Hf. apply andb_prop in Hf as [H0 Hf].
    cbn [Py.drop] in H0. apply negb_true_iff in H0.
    destruct s as [|c s].
    + cbn [Py.drop] in Ho. congruence.
    + rewrite (find_nat_later _ _ _ H0). cbn [Py.drop] in Ho.
      rewrite forallb_seq_shift in Hf. cbn [Py.drop] in Hf.
      rewrite (IH s); [reflexivity|]. now rewrite Ho, Hf.
Qed.


Lemma contains_find_nat (sub : string) : forall s,
  Py.contains sub s = match Py.find_nat s sub with Some _ => true | None => false end.
Proof.
  induction s as [|c s IH]; cbn [Py.contains Py.find_nat].
  - now destruct (String.prefix sub "").
  - destruct (String.prefix sub (String c s)); [reflexivity|].
    rewrite IH. now destruct (Py.find_nat s sub).
Qed.

Lemma take_min (n : nat) : forall s,
  Py.take (Nat.min n (String.length s)) s = Py.take n s.
Proof.
  induction n as [|n IH]; intros [|c s]; try reflexivity.
  cbn [String.length Nat.min Py.take]. now rewrite IH.
Qed.

Lemma drop_min (n : nat) : forall s,
  Py.drop (Nat.min n (String.length s)) s = Py.drop n s.
Proof.
  induction n as [|n IH]; intros [|c s]; try reflexivity.
  cbn [String.length Nat.min Py.drop]. now rewrite IH.
Qed.

Lemma clip_of_nat (len n : nat) : Py.clip len (Z.of_nat n) = Nat.min n len.
Proof.
  unfold Py.clip. destruct (Z.ltb_spec (Z.of_nat n) 0); [lia|].
  now rewrite Nat2Z.id.
Qed.

Lemma slice_to_of_nat (s : string) (n : nat) :
  Py.slice_to s (Z.of_nat n) = Py.take n s.
Proof. unfold Py.slice_to. now rewrite clip_of_nat, take_min. Qed.

Lemma slice_from_of_nat (s : string) (n : nat) :
  Py.slice_from s (Z.of_nat n) = Py.drop n s.
Proof. unfold Py.slice_from. now rewrite clip_of_nat, drop_min. Qed.

Lemma take_drop (n : nat) : forall s, Py.take n s +:+ Py.drop n s = s.
Proof.
  induction n as [|n IH]; intros [|c s]; try reflexivity.
  cbn [Py.take Py.drop append]. now rewrite IH.
Qed.

(** ** Stripping and splitting *)

Lemma split_aux_lstrip (s : string) :
  Py.split_aux [] (Py.lstrip s) = Py.split_aux [] s.
Proof.
  induction s as [|c s IH]; [reflexivity|].
  cbn [Py.lstrip Py.split_aux]. destruct (Py.isspace c) eqn:E; [exact IH|].
  cbn [Py.split_aux]. now rewrite E.
Qed.

Lemma split_aux_cons (cur : list ascii) (c : ascii) (s : string) :
  Py.split_aux cur (String c s)
  = if Py.isspace c then
      match cur with
      | [] => Py.split_aux [] s
      | _ => string_of_list_ascii (rev cur) :: Py.split_aux [] s
      end
    else Py.split_aux (c :: cur) s.
Proof. reflexivity. Qed.

Lemma split_aux_rstrip (s : string) : forall cur,
  Py.split_aux cur (Py.rstrip s) = Py.split_aux cur s.
Proof.
  induction s as [|c s IH]; intros cur; [reflexivity|].
  cbn [Py.rstrip]. destruct (Py.rstrip s) as [|d r] eqn:E.
  - rewrite (split_aux_cons cur c s).
    destruct (Py.isspace c) eqn:Ec.
    + rewrite <- !IH. cbn [Py.split_aux]. now destruct cur.
    + rewrite <- IH. cbn [Py.split_aux]. now rewrite Ec.
  - rewrite (split_aux_cons cur c s), (split_aux_cons cur c (String d r)).
    now rewrite !IH.
Qed.

(** Splitting does not see the white space that stripping removes. *)
Lemma split_strip (s : string) : Py.split (Py.strip s) = Py.split s.
Proof.
  unfold Py.split, Py.strip. now rewrite split_aux_rstrip, split_aux_lstrip.
Qed.

Lemma lstrip_all_space (s : string) : all_space s = true -> Py.lstrip s = "".
Proof.
  induction s as [|c s IH]; [reflexivity|]. cbn [all_space Py.lstrip].
  intros [Hc Hs]%andb_prop. rewrite Hc. auto.
Qed.

Lemma strip_all_space (s : string) : all_space s = true -> Py.strip s = "".
Proof. intros H. unfold Py.strip. now rewrite lstrip_all_space. Qed.

Lemma rstrip_not_blank (c : ascii) (s : string) :
  Py.isspace c = false -> Py.rstrip (String c s) <> "".
Proof.
  intros H. cbn [Py.rstrip]. destruct (Py.rstrip s); [|discriminate].
  rewrite H. discriminate.
Qed.

Lemma strip_blank (s : string) : String.eqb (Py.strip s) "" = all_space s.
Proof.
  unfold Py.strip. induction s as [|c s IH]; [reflexivity|].
  cbn [Py.lstrip all_space]. destruct (Py.isspace c) eqn:E; [exact IH|].
  cbn [andb]. apply String.eqb_neq. now apply rstrip_not_blank.
Qed.

(** ** Files and their lines *)

Lemma readline_append (f : file) : fst (readline f) +:+ snd (readline f) = f.
Proof.
  induction f as [|c f IH]; [reflexivity|].
  cbn [readline]. destruct (Ascii.eqb c Py.newline); [reflexivity|].
  destruct (readline f) as [l r]. simpl in *. now rewrite IH.
Qed.

Lemma readline_all_space (f : file) :
  all_space f = true ->
  all_space (fst (readline f)) = true /\ all_space (snd (readline f)) = true.
Proof.
  induction f as [|c f IH]; [now split|]. cbn [all_space readline].
  intros [Hc Hf]%andb_prop. destruct (Ascii.eqb c Py.newline).
  - cbn [fst snd all_space]. rewrite Hc. now split.
  - destruct (IH Hf) as [Hl Hr]. destruct (readline f) as [l r].
    cbn [fst snd all_space] in *. rewrite Hc. now split.
Qed.

Lemma readlines_aux_step (f : file) : forall cur,
  f <> "" ->
  readlines_aux cur f
  = (string_of_list_ascii (rev cur) +:+ fst (readline f))
      :: readlines_aux [] (snd (readline f)).
Proof.
  induction f as [|c f IH]; intros cur Hf; [congruence|].
  cbn [readlines_aux readline]. destruct (Ascii.eqb c Py.newline).
  - cbn [fst snd rev]. now rewrite string_of_list_ascii_app.
  - destruct f as [|d f].
    + cbn [readline readlines_aux fst snd rev].
      now rewrite string_of_list_ascii_app.
    + rewrite IH by discriminate.
      destruct (readline (String d f)) as [l r]. cbn [fst snd rev].
      rewrite string_of_list_ascii_app, append_assoc. reflexivity.
Qed.

(** [readlines] is [readline] as long as there is text. *)
Lemma readlines_step (f : file) :
  f <> "" ->
  readlines f = fst (readline f) :: readlines (snd (readline f)).
Proof. intros H. unfold readlines. now rewrite readlines_aux_step. Qed.

Lemma readlines_cons (f : file) (l : string) (ls : list string) :
  readlines f = l :: ls ->
  exists f', readline f = (l, f') /\ readlines f' = ls.
Proof.
  intros H. destruct f as [|c f]; [discriminate|].
  rewrite readlines_step in H by discriminate.
  destruct (readline (String c f)) as [l' f']. cbn [fst snd] in H.
  injection H as -> <-. now exists f'.
Qed.

(** ** The module line *)

Lemma module_line_loop_diverges (fuel : nat) : forall line f,
  Py.contains "module" (Py.lower line) = false ->
  Py.contains "module" (Py.lower f) = false ->
  module_line_loop fuel line f = OutOfFuel.
Proof.
  induction fuel as [|fuel IH]; intros line f Hl Hf; [reflexivity|].
  cbn [module_line_loop]. rewrite Hl. cbn [negb].
  pose proof (readline_append f) as E.
  destruct (readline f) as [l r]. cbn [fst snd] in E.
  rewrite <- E, lower_append in Hf.
  destruct (contains_append_false _ _ _ Hf). now apply IH.
Qed.

(** Without a line that contains [module], in any case, the scan for the
    module line does not end. *)
Lemma parse_test_module_name_diverges (fuel : nat) (f : file) :
  Py.contains "module" (Py.lower f) = false ->
  parse_test_module_name fuel f = OutOfFuel.
Proof.
  intros Hf. unfold parse_test_module_name.
  pose proof (readline_append f) as E.
  destruct (readline f) as [l r]. cbn [fst snd] in E.
  rewrite <- E, lower_append in Hf.
  destruct (contains_append_false _ _ _ Hf) as [Hl Hr].
  now rewrite (module_line_loop_diverges fuel l r Hl Hr).
Qed.

Lemma test_module_init_no_name (fuel : nat) (fs : filesystem)
    (path : string) (f : file) :
  fs !! path = Some f ->
  parse_test_module_name fuel f = OutOfFuel ->
  test_module_init fuel fs path = OutOfFuel.
Proof.
  intros Hp Hf. unfold test_module_init, open. rewrite Hp. cbn [bind].
  now rewrite Hf.
Qed.

(** C3: on a source without a module line the scanner raises nothing: the
    loop over [readline] reads the empty string at the end of the file for
    ever, and the construction of the suite never returns. *)
Theorem no_module_line_scan_never_returns (fuel : nat) :
  parse_test_module_name fuel no_module_source = OutOfFuel /\
  test_suite_init fuel {[ "hello.f90" := no_module_source ]} (PyStr "hello.f90")
  = OutOfFuel.
Proof.
  assert (H : parse_test_module_name fuel no_module_source = OutOfFuel)
    by (apply parse_test_module_name_diverges; reflexivity).
  split; [exact H|].
  unfold test_suite_init, parse.
  now rewrite (test_module_init_no_name fuel _ _ _ (lookup_singleton_eq _ _) H).
Qed.

Lemma module_line_loop_skips (skipped : list string) (found : string)
    (rest : list string) :
  Forall no_module skipped ->
  Py.contains "module" (Py.lower found) = true ->
  forall fuel line f,
    line :: readlines f = skipped ++ found :: rest ->
    (List.length skipped < fuel)%nat ->
    exists f', module_line_loop fuel line f = Ok (found, f') /\ readlines f' = rest.
Proof.
  intros Hs Hfound. induction Hs as [|b skipped Hb _ IH];
    intros fuel line f E Hfuel.
  - cbn [app] in E. injection E as -> E.
    destruct fuel as [|fuel]; [cbn in Hfuel; lia|].
    cbn [module_line_loop]. rewrite Hfound. now exists f.
  - cbn [app] in E. injection E as -> E.
    destruct fuel as [|fuel]; [cbn in Hfuel; lia|].
    cbn [module_line_loop]. unfold no_module in Hb. rewrite Hb. cbn [negb].
    assert (Hc : exists l ls, skipped ++ found :: rest = l :: ls)
      by (destruct skipped; cbn; eauto).
    destruct Hc as (l & ls & Hc). rewrite Hc in E.
    destruct (readlines_cons _ _ _ E) as (f' & Hr & Hls). rewrite Hr.
    apply IH; [|cbn in Hfuel; lia]. now rewrite Hls.
Qed.

Lemma last_character (s : string) :
  Py.slice_from s (-1) = "" \/ exists c, Py.slice_from s (-1) = String c "".
Proof.
  unfold Py.slice_from, Py.clip. cbn [Z.ltb Z.compare].
  induction s as [|c s IH]; [now left|].
  destruct s as [|d s]; [right; now exists c|].
  replace (Z.to_nat (Z.max (Z.of_nat (String.length (String c (String d s))) + -1) 0))
    with (S (Z.to_nat (Z.max (Z.of_nat (String.length (String d s)) + -1) 0)))
    by (cbn [String.length]; lia).
  exact IH.
Qed.

Lemma split_one_character (s : string) :
  s = "" \/ (exists c, s = String c "") ->
  getitem (Py.split (Py.strip s)) 1 = Raise IndexError.
Proof.
  rewrite split_strip. intros [->|[c ->]]; [reflexivity|].
  unfold Py.split. cbn [Py.split_aux]. now destruct (Py.isspace c).
Qed.

(** A module line that has [module] in capitals only makes the scanner
    raise [IndexError]. *)
Lemma parse_test_module_name_capitals (fuel : nat) (f : file)
    (skipped : list string) (found : string) (rest : list string) :
  readlines f = skipped ++ found :: rest ->
  Forall no_module skipped ->
  Py.contains "module" (Py.lower found) = true ->
  Py.contains "module" found = false ->
  (List.length skipped < fuel)%nat ->
  parse_test_module_name fuel f = Raise IndexError.
Proof.
  intros Hf Hs Hfound Hn Hfuel. unfold parse_test_module_name.
  assert (Hc : exists l ls, skipped ++ found :: rest = l :: ls)
    by (destruct skipped; cbn; eauto).
  destruct Hc as (l & ls & Hc). rewrite Hc in Hf.
  destruct (readlines_cons _ _ _ Hf) as (f1 & Hr & Hls). rewrite Hr.
  destruct (module_line_loop_skips skipped found rest Hs Hfound fuel l f1)
    as (f' & Hloop & Hrest); [now rewrite Hls | exact Hfuel |].
  rewrite Hloop. cbn [bind]. rewrite contains_find_nat in Hn.
  unfold Py.find. destruct (Py.find_nat found "module"); [discriminate|].
  now rewrite (split_one_character _ (last_character found)).
Qed.

(** C2: the line is chosen in any case but the keyword is then looked up
    in small letters only.  On a module line in capitals the lookup fails,
    the slice keeps the last character and no second token exists; when the
    module name contains [module] in small letters the name is read from
    there. *)
Theorem capital_module_line_misread (fuel : nat) :
  token_after_module upper_module_line = Some "foo" /\
  parse_test_module_name (S fuel) upper_module_line = Raise IndexError /\
  token_after_module mixed_module_line = Some "test_module" /\
  parse_test_module_name (S fuel) mixed_module_line = Ok ("!", "").
Proof.
  split; [reflexivity|]. split.
  - apply (parse_test_module_name_capitals (S fuel) upper_module_line
             [] upper_module_line []); try reflexivity.
    + constructor.
    + cbn. lia.
  - split; reflexivity.
Qed.

(** When the first [module] of the module line, in any case, is written
    in small letters, the name is the token after it. *)
Lemma parse_test_module_name_small_letters (fuel : nat) (f : file)
    (skipped : list string) (found : string) (rest : list string) (n : nat) :
  readlines f = skipped ++ found :: rest ->
  Forall no_module skipped ->
  first_occurrence_at "module" (Py.lower found) n = true ->
  first_occurrence_at "module" found n = true ->
  (List.length skipped < fuel)%nat ->
  exists f',
    parse_test_module_name fuel f
    = match token_after_module found with
      | Some token => Ok (token, f')
      | None => Raise IndexError
      end /\
    readlines f' = rest.
Proof.
  intros Hf Hs Hlow Hn Hfuel. unfold parse_test_module_name.
  assert (Hc : exists l ls, skipped ++ found :: rest = l :: ls)
    by (destruct skipped; cbn; eauto).
  destruct Hc as (l & ls & Hc). rewrite Hc in Hf.
  destruct (readlines_cons _ _ _ Hf) as (f1 & Hr & Hls). rewrite Hr.
  assert (Hfound : Py.contains "module" (Py.lower found) = true)
    by (rewrite contains_find_nat;
        now rewrite (first_occurrence_find _ _ _ Hlow)).
  destruct (module_line_loop_skips skipped found rest Hs Hfound fuel l f1)
    as (f' & Hloop & Hrest); [now rewrite Hls | exact Hfuel |].
  rewrite Hloop. cbn [bind]. exists f'. split; [|exact Hrest].
  unfold token_after_module, Py.find.
  rewrite (first_occurrence_find _ _ _ Hlow), (first_occurrence_find _ _ _ Hn).
  rewrite slice_from_of_nat, split_strip. unfold getitem, Py.index.
  cbn [Z.ltb Z.compare]. change (Z.to_nat 1) with 1%nat.
  now destruct (nth_error (Py.split (Py.drop n found)) 1).
Qed.

(** ** Subroutine declarations *)

Lemma find_bracket (s : string) :
  match Py.find_nat s "(" with
  | Some k => Py.take k s = before_bracket s
  | None => before_bracket s = s
  end.
Proof.
  induction s as [|c s IH]; [reflexivity|].
  cbn [Py.find_nat String.prefix before_bracket].
  destruct (ascii_dec "(" c) as [<-|Hc].
  - now rewrite prefix_empty.
  - assert (E : Ascii.eqb c "(" = false)
      by (apply Ascii.eqb_neq; congruence).
    rewrite E. destruct (Py.find_nat s "(") as [k|]; cbn [option_map Py.take];
      now rewrite IH.
Qed.

Lemma truncate_before_bracket (subname : string) :
  (if 0 <=? Py.find subname "("
   then Py.slice_to subname (Py.find subname "(") else subname)
  = before_bracket subname.
Proof.
  unfold Py.find. pose proof (find_bracket subname) as H.
  destruct (Py.find_nat subname "(") as [k|].
  - destruct (Z.leb_spec 0 (Z.of_nat k)); [|lia].
    now rewrite slice_to_of_nat.
  - now destruct (Z.leb_spec 0 (-1)); [lia|].
Qed.




Example subroutine_declaration_accepted :
  subroutine_declaration sample_declaration
  = Ok (Some "Test_alpha").
Proof. reflexivity. Qed.

Example subroutine_declaration_rejected :
  subroutine_declaration ("  end subroutine test_alpha" +:+ nl) = Ok None.
Proof. reflexivity. Qed.

(** ** Test cases and hooks *)

(** The loop over blank lines stops at the first line that is not blank. *)
Lemma blank_line_loop_skips (blanks : list string) (next : string)
    (rest : list string) :
  Forall (fun b => all_space b = true) blanks ->
  all_space next = false ->
  forall fuel line f,
    line :: readlines f = blanks ++ next :: rest ->
    (List.length blanks < fuel)%nat ->
    exists f', blank_line_loop fuel line f = Ok (next, f') /\ readlines f' = rest.
Proof.
  intros Hb Hn. induction Hb as [|b blanks Hbl _ IH]; intros fuel line f E Hfuel.
  - cbn [app] in E. injection E as -> E.
    destruct fuel as [|fuel]; [cbn in Hfuel; lia|].
    cbn [blank_line_loop]. rewrite strip_blank, Hn. now exists f.
  - cbn [app] in E. injection E as -> E.
    destruct fuel as [|fuel]; [cbn in Hfuel; lia|].
    cbn [blank_line_loop]. rewrite strip_blank, Hbl.
    assert (Hc : exists l ls, blanks ++ next :: rest = l :: ls)
      by (destruct blanks; cbn; eauto).
    destruct Hc as (l & ls & Hc). rewrite Hc in E.
    destruct (readlines_cons _ _ _ E) as (f' & Hr & Hls). rewrite Hr.
    apply IH; [|cbn in Hfuel; lia]. now rewrite Hls.
Qed.

Lemma find_comment_mark (s : string) :
  match Py.find_nat s "!" with
  | Some k => Py.drop (S k) s = after_comment_mark s
  | None => True
  end.
Proof.
  induction s as [|c s IH]; [exact I|].
  cbn [Py.find_nat String.prefix after_comment_mark].
  destruct (ascii_dec "!" c) as [<-|Hc].
  - now rewrite prefix_empty.
  - assert (E : Ascii.eqb c "!" = false)
      by (apply Ascii.eqb_neq; congruence).
    rewrite E. now destruct (Py.find_nat s "!").
Qed.

Lemma description_of_line (line subname : string) :
  (if 0 <=? Py.find line "!"
   then Py.strip (Py.slice_from line (Py.find line "!" + 1))
   else subname)
  = if Py.contains "!" line then Py.strip (after_comment_mark line)
    else subname.
Proof.
  rewrite contains_find_nat. unfold Py.find.
  pose proof (find_comment_mark line) as H.
  destruct (Py.find_nat line "!") as [k|].
  - destruct (Z.leb_spec 0 (Z.of_nat k)); [|lia].
    replace (Z.of_nat k + 1) with (Z.of_nat (S k)) by lia.
    now rewrite slice_from_of_nat, H.
  - now destruct (Z.leb_spec 0 (-1)); [lia|].
Qed.

(** C6: after the declaration of a test subroutine the scanner passes the
    blank lines and stops at the next line that is not blank; the
    description is the stripped text after the first exclamation mark of
    that line, or the name of the subroutine when the line has none.  The
    test case is appended and the scan goes on after that line. *)
Theorem test_case_description (fuel : nat) (f : file) (line subname : string)
    (st : subroutine_state) (blanks : list string) (next : string)
    (rest : list string) :
  subroutine_declaration line = Ok (Some subname) ->
  subroutine_type subname = Some Test ->
  readlines f = blanks ++ next :: rest ->
  Forall (fun b => all_space b = true) blanks ->
  all_space next = false ->
  (List.length blanks < fuel)%nat ->
  exists f',
    parse_subroutine fuel f line st
    = Ok (mk_subroutine_state (st_setup st) (st_teardown st)
            (st_subroutines st
             ++ [mk_test_subroutine subname
                   (if Py.contains "!" next
                    then Py.strip (after_comment_mark next)
                    else subname)]),
          f') /\
    readlines f' = rest.
Proof.
  intros Hd Ht Hf Hb Hn Hfuel.
  unfold parse_subroutine. rewrite Hd. cbn [bind].
  unfold register_subroutine. rewrite Ht.
  assert (Hc : exists l ls, blanks ++ next :: rest = l :: ls)
    by (destruct blanks; cbn; eauto).
  destruct Hc as (l & ls & Hc). rewrite Hc in Hf.
  destruct (readlines_cons _ _ _ Hf) as (f1 & Hr & Hls). rewrite Hr.
  destruct (blank_line_loop_skips blanks next rest Hb Hn fuel l f1)
    as (f' & Hloop & Hrest); [now rewrite Hls | exact Hfuel |].
  rewrite Hloop. cbn [bind]. rewrite description_of_line. now exists f'.
Qed.

Lemma test_case_description_witness :
  exists f',
    parse_subroutine 3 sample_body sample_declaration
      (mk_subroutine_state false false [])
    = Ok (mk_subroutine_state false false
            [mk_test_subroutine "Test_alpha" "checks alpha"], f') /\
    readlines f' = ["  call check(x)" +:+ nl].
Proof.
  apply (test_case_description 3 sample_body sample_declaration "Test_alpha"
           (mk_subroutine_state false false [])
           [nl; "   " +:+ nl] ("  ! checks alpha " +:+ nl)
           ["  call check(x)" +:+ nl]).
  - reflexivity.
  - reflexivity.
  - reflexivity.
  - repeat constructor.
  - reflexivity.
  - cbn. lia.
Defined.

Lemma blank_line_loop_diverges (fuel : nat) : forall line f,
  all_space line = true -> all_space f = true ->
  blank_line_loop fuel line f = OutOfFuel.
Proof.
  induction fuel as [|fuel IH]; intros line f Hl Hf; [reflexivity|].
  cbn [blank_line_loop]. rewrite (strip_all_space _ Hl). cbn [String.eqb].
  destruct (readline_all_space f Hf) as [H1 H2].
  destruct (readline f) as [l r]. now apply IH.
Qed.

(** A test subroutine declared where only white space is left in the file
    is never registered: the search for its description does not end. *)
Lemma register_subroutine_diverges (fuel : nat) (f : file) (subname : string)
    (st : subroutine_state) :
  subroutine_type subname = Some Test ->
  all_space f = true ->
  register_subroutine fuel f subname st = OutOfFuel.
Proof.
  intros Ht Hf. unfold register_subroutine. rewrite Ht.
  destruct (readline_all_space f Hf) as [H1 H2].
  destruct (readline f) as [l r].
  now rewrite (blank_line_loop_diverges fuel l r H1 H2).
Qed.

(** C4: the last line of the source declares [test_a]; the declaration is
    accepted and classified as a test, and yet no test case is appended:
    the scan of the module never returns. *)
Theorem test_at_end_of_file_never_registered (fuel : nat) :
  subroutine_declaration ("subroutine test_a" +:+ nl) = Ok (Some "test_a") /\
  subroutine_type "test_a" = Some Test /\
  test_module_init fuel {[ "t.f90" := truncated_source ]} "t.f90" = OutOfFuel.
Proof.
  split; [reflexivity|]. split; [reflexivity|].
  destruct fuel as [|fuel]; [reflexivity|].
  unfold test_module_init, open. rewrite lookup_singleton_eq. cbn [bind].
  replace (parse_test_module_name (S fuel) truncated_source)
    with (Ok ("m", "subroutine test_a" +:+ nl) : result (string * file))
    by reflexivity.
  cbn [bind]. unfold parse_subroutines.
  replace (readline ("subroutine test_a" +:+ nl))
    with ("subroutine test_a" +:+ nl, "") by reflexivity.
  cbn [subroutines_loop].
  replace (String.eqb ("subroutine test_a" +:+ nl) "") with false by reflexivity.
  replace (Py.contains "subroutine" (Py.lower ("subroutine test_a" +:+ nl)))
    with true by reflexivity.
  unfold parse_subroutine.
  replace (subroutine_declaration ("subroutine test_a" +:+ nl))
    with (Ok (Some "test_a") : result (option string)) by reflexivity.
  cbn [bind].
  now rewrite register_subroutine_diverges.
Qed.

(** The hooks and the ordinary subroutines: a flag is set or nothing is
    done, nothing is read and no test case is added. *)
Lemma parse_subroutine_hooks (fuel : nat) (f : file) (line subname : string)
    (st : subroutine_state) :
  subroutine_declaration line = Ok (Some subname) ->
  (Py.lower subname = "setup" ->
   parse_subroutine fuel f line st
   = Ok (mk_subroutine_state true (st_teardown st) (st_subroutines st), f)) /\
  (Py.lower subname = "teardown" ->
   parse_subroutine fuel f line st
   = Ok (mk_subroutine_state (st_setup st) true (st_subroutines st), f)) /\
  (Py.lower subname <> "setup" -> Py.lower subname <> "teardown" ->
   Py.startswith (Py.lower subname) "test_" = false ->
   parse_subroutine fuel f line st = Ok (st, f)).
Proof.
  intros Hd. unfold parse_subroutine. rewrite Hd. cbn [bind].
  unfold register_subroutine, subroutine_type. repeat split.
  - now intros ->.
  - now intros ->.
  - intros H1%String.eqb_neq H2%String.eqb_neq H3. now rewrite H1, H2, H3.
Qed.

(** ** Constructing a suite *)

Lemma parse_single (fuel : nat) (fs : filesystem) (path : string) :
  parse fuel fs [path] []
  = (do md <- test_module_init fuel fs path ; Ok [md]).
Proof. cbn [parse]. now destruct (test_module_init fuel fs path). Qed.

(** C10: a single path stands for the list that holds just that path: the
    two constructions have the same outcome, field by field when a suite
    is built, and the same failure otherwise.  The suite that is built
    keeps the list form and has one module, the one of that path. *)
Theorem test_suite_init_single_path (fuel : nat) (fs : filesystem) (s : string) :
  test_suite_init fuel fs (PyStr s) = test_suite_init fuel fs (PyList [s]) /\
  forall suite,
    test_suite_init fuel fs (PyStr s) = Ok suite ->
    test_filenames suite = [s] /\
    exists md, test_module_init fuel fs s = Ok md /\ test_modules suite = [md].
Proof.
  split; [reflexivity|]. intros suite H.
  unfold test_suite_init in H. rewrite parse_single in H.
  destruct (test_module_init fuel fs s) as [md| |]; cbn [bind] in H;
    [|discriminate|discriminate].
  injection H as <-. split; [reflexivity|]. now exists md.
Qed.

Lemma test_suite_init_single_path_witness :
  exists suite,
    test_suite_init 4 {[ "foo.f90" := scenario_source ]} (PyStr "foo.f90")
    = Ok suite /\
    test_filenames suite = ["foo.f90"] /\
    exists md,
      test_module_init 4 {[ "foo.f90" := scenario_source ]} "foo.f90" = Ok md /\
      test_modules suite = [md].
Proof.
  eexists. split; [vm_compute; reflexivity|].
  apply (proj2 (test_suite_init_single_path 4
                  {[ "foo.f90" := scenario_source ]} "foo.f90")).
  vm_compute. reflexivity.
Defined.

(** ** Building and running *)

(** C1 fails as stated: a suite with a module and no test case is written,
    built and run like any other, and here [build_run] even returns true. *)
Lemma build_run_runs_suite_without_test_cases :
  test_suite_init 3 empty_module_fs (PyStr "empty.f90") = Ok empty_module_suite /\
  no_test_cases empty_module_suite /\
  match build_run posix_env empty_module_suite (mk_world empty_module_fs [])
          "driver.f90" "make" with
  | Ok (returned, _, w) =>
      returned = true /\ calls w = ["make"; "./driver > driver.out"]
  | _ => False
  end.
Proof.
  split; [vm_compute; reflexivity|]. split.
  - repeat constructor.
  - vm_compute. split; reflexivity.
Qed.

(** C1, amended: the gate of [build_run] is the number of modules.  A suite
    without modules makes [build_run] return false, and neither the suite
    nor the world changes: no driver is written, no command is run. *)
Theorem build_run_without_modules (env : environment) (s : test_suite)
    (w : world) (driver build_command : string) :
  test_modules s = [] ->
  build_run env s w driver build_command = Ok (false, s, w).
Proof.
  intros H. unfold build_run, get_num_test_modules. now rewrite H.
Qed.

Lemma build_run_without_modules_witness :
  test_modules no_modules_suite = [] /\
  build_run posix_env no_modules_suite (mk_world empty_module_fs [])
    "driver.f90" "make"
  = Ok (false, no_modules_suite, mk_world empty_module_fs []).
Proof.
  split; [reflexivity|].
  apply (build_run_without_modules posix_env no_modules_suite
           (mk_world empty_module_fs []) "driver.f90" "make").
  reflexivity.
Defined.

(** ** Failure messages *)

Lemma scan_messages_skip (before : list string) (header : string)
    (rest : list string) :
  Forall no_header before ->
  Py.contains "Failed assertion messages:" header = true ->
  scan_messages (before ++ header :: rest) = collect_messages rest.
Proof.
  intros Hb Hh. induction Hb as [|l before Hl _ IH].
  - cbn [app scan_messages]. now rewrite Hh.
  - cbn [app scan_messages]. unfold no_header in Hl. now rewrite Hl.
Qed.

Lemma scan_messages_no_header (lines : list string) :
  Forall no_header lines -> scan_messages lines = [].
Proof.
  induction 1 as [|l lines Hl _ IH]; [reflexivity|].
  cbn [scan_messages]. unfold no_header in Hl. now rewrite Hl.
Qed.

Lemma collect_messages_block (body rest : list string) :
  Forall no_closing body ->
  match rest with
  | [] => True
  | closing :: _ =>
      Py.contains "end of failed assertion messages." closing = true
  end ->
  collect_messages (body ++ rest) = map Py.strip body.
Proof.
  intros Hb Hr. induction Hb as [|l body Hl _ IH].
  - destruct rest as [|closing after]; [reflexivity|].
    cbn [app collect_messages]. now rewrite Hr.
  - cbn [app collect_messages map]. unfold no_closing in Hl.
    now rewrite Hl, IH.
Qed.

(** C8: with the success flag set the messages are empty.  Without it, the
    lines after the first header line are collected, stripped, up to the
    first closing line or the end of the output; what follows the closing
    line is not looked at, and no header means no messages. *)
Theorem get_messages_first_block :
  (forall s, suite_success s = Some true ->
     exists s', get_messages s = Ok s' /\ messages s' = Some []) /\
  (forall s before header body rest,
     suite_success s = Some false ->
     output_lines s = Some (before ++ header :: body ++ rest) ->
     Forall no_header before ->
     Py.contains "Failed assertion messages:" header = true ->
     Forall no_closing body ->
     match rest with
     | [] => True
     | closing :: _ =>
         Py.contains "end of failed assertion messages." closing = true
     end ->
     exists s',
       get_messages s = Ok s' /\ messages s' = Some (map Py.strip body)) /\
  (forall s lines,
     suite_success s = Some false ->
     output_lines s = Some lines ->
     Forall no_header lines ->
     exists s', get_messages s = Ok s' /\ messages s' = Some []).
Proof.
  repeat split.
  - intros s Hs. unfold get_messages. rewrite Hs. cbn [getattr bind negb].
    eexists. split; reflexivity.
  - intros s before header body rest Hs Hl Hb Hh Hbody Hr.
    unfold get_messages. rewrite Hs, Hl. cbn [getattr bind negb].
    rewrite scan_messages_skip, collect_messages_block by assumption.
    eexists. split; reflexivity.
  - intros s lines Hs Hl Hn. unfold get_messages. rewrite Hs, Hl.
    cbn [getattr bind negb]. rewrite scan_messages_no_header by assumption.
    eexists. split; reflexivity.
Qed.

Lemma get_messages_first_block_witness :
  exists s',
    get_messages failed_suite = Ok s' /\ messages s' = Some ["msgA"; "msgB"].
Proof.
  destruct get_messages_first_block as [_ [H _]].
  apply (H failed_suite
           [" Some tests failed!" +:+ nl]
           ("  -- Failed assertion messages:" +:+ nl)
           ["   msgA" +:+ nl; "   msgB  " +:+ nl]
           ["  -- end of failed assertion messages." +:+ nl;
            "  -- Failed assertion messages:" +:+ nl;
            "   msgC" +:+ nl;
            "  -- end of failed assertion messages." +:+ nl]).
  - reflexivity.
  - reflexivity.
  - repeat constructor.
  - reflexivity.
  - repeat constructor.
  - reflexivity.
Defined.

(** ** Statistics *)

Lemma list_index_first (l r : list string) (x : string) :
  ~ In x l -> Py.list_index (l ++ x :: r) x = Some (List.length l).
Proof.
  induction l as [|y l IH]; intros H.
  - cbn. now rewrite String.eqb_refl.
  - cbn [app Py.list_index List.length].
    destruct (String.eqb_spec y x) as [->|_]; [exfalso; apply H; now left|].
    rewrite IH; [reflexivity|]. intros Hin. apply H. now right.
Qed.

Lemma index_from_end {A} (l r : list A) (x : A) :
  Py.index (l ++ x :: r) (- (Z.of_nat (List.length r) + 1)) = Some x.
Proof.
  unfold Py.index. rewrite length_app. cbn [List.length].
  destruct (Z.ltb_spec (- (Z.of_nat (List.length r) + 1)) 0); [|lia].
  destruct (Z.ltb_spec
    (Z.of_nat (List.length l + S (List.length r))
     + - (Z.of_nat (List.length r) + 1)) 0); [lia|].
  replace (Z.to_nat _) with (List.length l + 0)%nat by lia.
  now rewrite nth_error_app2, Nat.add_0_r, Nat.sub_diag by lia.
Qed.

Lemma parse_summary_line_correct (line : string) (x y : Z) :
  summary_of line x y -> parse_summary_line line = Ok (x, y).
Proof.
  intros (before & a & b & after & Hs & Hn & Ha & Hb).
  unfold parse_summary_line. rewrite Hs.
  replace (rev (before ++ a :: "/" :: b :: after))
    with (rev (b :: after) ++ "/" :: rev (before ++ [a])).
  2:{ rewrite !rev_app_distr. cbn [rev app].
      rewrite <- !app_assoc. reflexivity. }
  rewrite list_index_first by (now rewrite <- in_rev).
  rewrite length_rev. cbn [bind List.length].
  unfold getitem.
  replace (- (Z.of_nat (S (List.length after)) + 1) - 1)
    with (- (Z.of_nat (List.length ("/" :: b :: after)) + 1))
    by (cbn [List.length]; lia).
  rewrite index_from_end. cbn [bind]. unfold to_int. rewrite Ha. cbn [bind].
  replace (before ++ a :: "/" :: b :: after)
    with ((before ++ [a; "/"]) ++ b :: after)
    by (now rewrite <- app_assoc).
  replace (- (Z.of_nat (S (List.length after)) + 1) + 1)
    with (- (Z.of_nat (List.length after) + 1)) by lia.
  rewrite index_from_end. cbn [bind]. now rewrite Hb.
Qed.

Lemma getitem_head {A} (x : A) (l : list A) : getitem (x :: l) 0 = Ok x.
Proof. reflexivity. Qed.

Lemma statistics_loop_header (line : string) (rest : list string)
    (s : test_suite) :
  Py.contains "Successful asserts / total asserts" line = true ->
  statistics_loop (line :: rest) s
  = (do '(a, b) <- parse_summary_line line ;
     do next <- getitem rest 0 ;
     do '(c, d) <- parse_summary_line next ;
     statistics_loop rest
       (set_cases (set_asserts s (mk_test_result a b)) (mk_test_result c d))).
Proof. intros H. cbn [statistics_loop]. now rewrite H. Qed.

Lemma statistics_loop_no_header (lines : list string) (s : test_suite) :
  Forall no_statistics lines -> statistics_loop lines s = Ok s.
Proof.
  induction 1 as [|l lines Hl _ IH]; [reflexivity|].
  cbn [statistics_loop]. unfold no_statistics in Hl. now rewrite Hl.
Qed.

(** C7: a summary line gives the integers around its last slash token;
    the header line of the statistics gives the counts of asserts and the
    line after it the counts of cases; without a header line the suite is
    left as it is, and a suite starts with all four counts at zero. *)
Theorem get_statistics_counts :
  (forall line x y,
     summary_of line x y -> parse_summary_line line = Ok (x, y)) /\
  (forall s before header next after a b c d,
     output_lines s = Some (before ++ header :: next :: after) ->
     Forall no_statistics before ->
     Py.contains "Successful asserts / total asserts" header = true ->
     Forall no_statistics (next :: after) ->
     summary_of header a b ->
     summary_of next c d ->
     exists s',
       get_statistics s = Ok s' /\
       asserts s' = mk_test_result a b /\
       cases s' = mk_test_result c d) /\
  (forall s lines,
     output_lines s = Some lines ->
     Forall no_statistics lines ->
     get_statistics s = Ok s) /\
  (forall fuel fs arg s,
     test_suite_init fuel fs arg = Ok s ->
     asserts s = mk_test_result 0 0 /\ cases s = mk_test_result 0 0).
Proof.
  split; [exact parse_summary_line_correct|]. split; [|split].
  - intros s before header next after a b c d Hl Hb Hh Hn Ha Hc.
    unfold get_statistics. rewrite Hl. cbn [getattr bind].
    generalize s. clear Hl s.
    induction Hb as [|l before Hno _ IH]; intros s.
    + cbn [app]. rewrite statistics_loop_header by exact Hh.
      rewrite (parse_summary_line_correct _ _ _ Ha). cbn [bind].
      rewrite getitem_head. cbn [bind].
      rewrite (parse_summary_line_correct _ _ _ Hc). cbn [bind].
      rewrite statistics_loop_no_header by exact Hn.
      eexists. split; [reflexivity|]. split; reflexivity.
    + cbn [app statistics_loop]. unfold no_statistics in Hno. rewrite Hno.
      apply IH.
  - intros s lines Hl Hn. unfold get_statistics. rewrite Hl. cbn [getattr bind].
    now apply statistics_loop_no_header.
  - intros fuel fs arg s H. unfold test_suite_init in H.
    destruct (parse fuel fs _ []) as [mods| |]; cbn [bind] in H;
      [|discriminate|discriminate].
    injection H as <-. now split.
Qed.

Lemma get_statistics_counts_witness :
  exists s',
    get_statistics passed_suite = Ok s' /\
    asserts s' = mk_test_result 9 10 /\
    cases s' = mk_test_result 3 4.
Proof.
  destruct get_statistics_counts as [_ [H _]].
  apply (H passed_suite
           ["x SUCCESSFUL! y" +:+ nl]
           ("Successful asserts / total asserts : 9 / 10" +:+ nl)
           ("Successful cases / total cases : 3 / 4" +:+ nl)
           [] 9 10 3 4).
  - reflexivity.
  - repeat constructor.
  - reflexivity.
  - repeat constructor.
  - exists ["Successful"; "asserts"; "/"; "total"; "asserts"; ":"], "9", "10", [].
    repeat split; try reflexivity. intros [E|[]]; discriminate E.
  - exists ["Successful"; "cases"; "/"; "total"; "cases"; ":"], "3", "4", [].
    repeat split; try reflexivity. intros [E|[]]; discriminate E.
Defined.

(** ** The percentage *)

Lemma shr_record_of_loc_m (m : Z) (l : location) :
  shr_m (shr_record_of_loc m l) = m.
Proof. destruct l as [|[]]; reflexivity. Qed.

Lemma shr_1_m (mrs : shr_record) :
  0 <= shr_m mrs -> shr_m (shr_1 mrs) = shr_m mrs / 2.
Proof.
  destruct mrs as [m r s]. cbn [shr_m shr_1]. intros Hm.
  destruct m as [|[p|p|]|p]; cbn [shr_m]; try reflexivity; try lia.
  - apply (Z.div_unique _ 2 _ 1); lia.
  - apply (Z.div_unique _ 2 _ 0); lia.
Qed.

Lemma iter_pos_shr_m (p : positive) : forall mrs,
  0 <= shr_m mrs ->
  shr_m (SpecFloat.iter_pos shr_1 p mrs) = shr_m mrs / 2 ^ Zpos p.
Proof.
  induction p as [p IH|p IH|]; intros mrs Hm; cbn [SpecFloat.iter_pos].
  - assert (H1 : 0 <= shr_m (shr_1 mrs))
      by (rewrite shr_1_m by exact Hm; apply Z.div_pos; lia).
    assert (H2 : 0 <= shr_m (SpecFloat.iter_pos shr_1 p (shr_1 mrs)))
      by (rewrite IH by exact H1; apply Z.div_pos; lia).
    rewrite IH, IH, shr_1_m by assumption.
    rewrite !Z.div_div by lia.
    replace (Zpos p~1) with (1 + Zpos p + Zpos p) by lia.
    rewrite !Z.pow_add_r by lia. now rewrite Z.pow_1_r, <- Z.mul_assoc.
  - assert (H2 : 0 <= shr_m (SpecFloat.iter_pos shr_1 p mrs))
      by (rewrite IH by exact Hm; apply Z.div_pos; lia).
    rewrite IH, IH by assumption.
    rewrite !Z.div_div by lia.
    replace (Zpos p~0) with (Zpos p + Zpos p) by lia.
    now rewrite !Z.pow_add_r by lia.
  - rewrite shr_1_m by exact Hm. now rewrite Z.pow_1_r.
Qed.

Lemma digits2_pos_lower (m : positive) :
  2 ^ (Zpos (digits2_pos m) - 1) <= Zpos m.
Proof.
  induction m as [m IH|m IH|]; cbn [digits2_pos]; [| |cbn; lia].
  - rewrite Pos2Z.inj_succ.
    replace (Z.succ (Zpos (digits2_pos m)) - 1)
      with (1 + (Zpos (digits2_pos m) - 1)) by lia.
    rewrite Z.pow_add_r, Z.pow_1_r by lia. lia.
  - rewrite Pos2Z.inj_succ.
    replace (Z.succ (Zpos (digits2_pos m)) - 1)
      with (1 + (Zpos (digits2_pos m) - 1)) by lia.
    rewrite Z.pow_add_r, Z.pow_1_r by lia. lia.
Qed.

(** Above the least exponent a shift to the format keeps a positive
    mantissa positive. *)
Lemma shr_fexp_positive (m : positive) (e : Z) (l : location) :
  emin prec emax <= e ->
  0 < shr_m (fst (shr_fexp prec emax (Zpos m) e l)) /\
  emin prec emax <= snd (shr_fexp prec emax (Zpos m) e l).
Proof.
  intros He. unfold shr_fexp, shr.
  destruct (fexp prec emax (Zdigits2 (Zpos m) + e) - e) as [|p|p] eqn:En;
    cbn [fst snd]; try (rewrite shr_record_of_loc_m; split; lia).
  rewrite iter_pos_shr_m by (rewrite shr_record_of_loc_m; lia).
  rewrite shr_record_of_loc_m. split; [|lia].
  apply Z.div_str_pos. split; [apply Z.pow_pos_nonneg; lia|].
  apply Z.le_trans with (2 ^ (Zpos (digits2_pos m) - 1));
    [|apply digits2_pos_lower].
  apply Z.pow_le_mono_r; [lia|].
  unfold fexp, emin, prec, emax in *. cbn [Zdigits2] in En. lia.
Qed.

Lemma round_nearest_even_positive (m : Z) (l : location) :
  0 < m -> 0 < round_nearest_even m l.
Proof.
  intros H. destruct l as [|[]]; cbn [round_nearest_even]; try lia.
  destruct (Z.even m); lia.
Qed.

Lemma binary_round_aux_not_zero (sx : bool) (m : positive) (e : Z)
    (l : location) :
  emin prec emax <= e ->
  float_is_zero (binary_round_aux prec emax sx (Zpos m) e l) = false.
Proof.
  intros He. unfold binary_round_aux.
  destruct (shr_fexp_positive m e l He) as [H1 H2].
  destruct (shr_fexp prec emax (Zpos m) e l) as [mrs' e'].
  cbn [fst snd] in H1, H2.
  pose proof (round_nearest_even_positive _ (loc_of_shr_record mrs') H1) as H3.
  destruct (round_nearest_even (shr_m mrs') (loc_of_shr_record mrs'))
    as [|m'|m']; try lia.
  destruct (shr_fexp_positive m' e' loc_Exact H2) as [H4 _].
  destruct (shr_fexp prec emax (Zpos m') e' loc_Exact) as [mrs'' e''].
  cbn [fst] in H4. destruct (shr_m mrs'') as [|m''|m'']; try lia.
  now destruct (e'' <=? emax - prec).
Qed.

Lemma binary_round_not_zero (sx : bool) (m : positive) :
  float_is_zero (binary_round prec emax sx m 0) = false.
Proof.
  unfold binary_round, shl_align.
  destruct (fexp prec emax (Zpos (digits2_pos m) + 0) - 0) as [|p|p] eqn:E;
    apply binary_round_aux_not_zero;
    unfold fexp, emin, prec, emax in *; lia.
Qed.

(** The float of an integer is zero for zero only. *)
Lemma float_of_int_zero (n : Z) (x : float) :
  float_of_int n = Ok x -> float_is_zero x = (n =? 0).
Proof.
  unfold float_of_int. destruct n as [|p|p]; cbn [binary_normalize Z.eqb].
  - now intros [= <-].
  - pose proof (binary_round_not_zero false p) as H.
    destruct (binary_round prec emax false p 0); intros [= <-]; exact H.
  - pose proof (binary_round_not_zero true p) as H.
    destruct (binary_round prec emax true p 0); intros [= <-]; exact H.
Qed.

Lemma digits2_pos_upper (m : positive) : Zpos m < 2 ^ Zpos (digits2_pos m).
Proof.
  induction m as [m IH|m IH|]; cbn [digits2_pos]; [| |cbn; lia];
    rewrite Pos2Z.inj_succ, Z.pow_succ_r by lia; lia.
Qed.

Lemma digits2_pos_le (m : positive) (k : Z) :
  0 <= k -> Zpos m < 2 ^ k -> Zpos (digits2_pos m) <= k.
Proof.
  intros Hk Hm. pose proof (digits2_pos_lower m) as Hl.
  assert (H : 2 ^ (Zpos (digits2_pos m) - 1) < 2 ^ k) by lia.
  apply Z.pow_lt_mono_r_iff in H; lia.
Qed.

Lemma iter_xO (k : positive) (m : positive) :
  Zpos (Pos.iter xO m k) = Zpos m * 2 ^ Zpos k.
Proof.
  induction k as [|k IH] using Pos.peano_ind.
  - cbn [Pos.iter]. lia.
  - rewrite Pos.iter_succ, Pos2Z.inj_xO, IH, Pos2Z.inj_succ, Z.pow_succ_r by lia.
    lia.
Qed.

(** A shift to the format does not raise the magnitude of a number, and
    its exponent stays below that of the format at this magnitude. *)
Lemma shr_fexp_exponent (m : positive) (e X : Z) (l : location) :
  emin prec emax <= e ->
  Zpos (digits2_pos m) + e <= X ->
  exists m' r s e',
    shr_fexp prec emax (Zpos m) e l = (Build_shr_record (Zpos m') r s, e') /\
    Zpos (digits2_pos m') + e' <= X /\
    emin prec emax <= e' <= Z.max e (fexp prec emax X).
Proof.
  intros He HX.
  destruct (shr_fexp_positive m e l He) as [Hpos _].
  unfold shr_fexp, shr in *.
  destruct (fexp prec emax (Zdigits2 (Zpos m) + e) - e) as [|p|p] eqn:En;
    cbn [fst snd] in *.
  - destruct l as [|[]]; cbn [shr_record_of_loc];
      do 4 eexists; (split; [reflexivity|]); lia.
  - pose proof (iter_pos_shr_m p (shr_record_of_loc (Zpos m) l)) as Hm.
    rewrite shr_record_of_loc_m in Hm. specialize (Hm ltac:(lia)).
    destruct (SpecFloat.iter_pos shr_1 p (shr_record_of_loc (Zpos m) l))
      as [[|m'|m'] r s]; cbn [shr_m] in *; try lia.
    exists m', r, s, (e + Zpos p). split; [reflexivity|].
    cbn [Zdigits2] in En.
    assert (Hd : Zpos p < Zpos (digits2_pos m))
      by (unfold fexp, emin, prec, emax in *; lia).
    assert (Hlt : Zpos m' < 2 ^ (Zpos (digits2_pos m) - Zpos p)).
    { rewrite Hm. apply Z.div_lt_upper_bound; [apply Z.pow_pos_nonneg; lia|].
      rewrite <- Z.pow_add_r by lia.
      replace (Zpos p + (Zpos (digits2_pos m) - Zpos p))
        with (Zpos (digits2_pos m)) by lia.
      apply digits2_pos_upper. }
    apply digits2_pos_le in Hlt; [|lia].
    unfold fexp, emin, prec, emax in *. lia.
  - destruct l as [|[]]; cbn [shr_record_of_loc];
      do 4 eexists; (split; [reflexivity|]); lia.
Qed.

Lemma round_nearest_even_digits (m : positive) (l : location) :
  exists m', round_nearest_even (Zpos m) l = Zpos m' /\
    Zpos (digits2_pos m') <= Zpos (digits2_pos m) + 1.
Proof.
  pose proof (round_nearest_even_positive (Zpos m) l ltac:(lia)) as Hpos.
  assert (Hle : round_nearest_even (Zpos m) l <= Zpos m + 1)
    by (destruct l as [|[]]; cbn [round_nearest_even]; try lia;
        destruct (Z.even (Zpos m)); lia).
  destruct (round_nearest_even (Zpos m) l) as [|m'|m']; try lia.
  exists m'. split; [reflexivity|].
  apply digits2_pos_le; [lia|].
  pose proof (digits2_pos_upper m) as Hu.
  rewrite Z.pow_add_r, Z.pow_1_r by lia. lia.
Qed.

Lemma binary_round_aux_finite (sx : bool) (m : positive) (e : Z)
    (l : location) :
  emin prec emax <= e <= 0 ->
  Zpos (digits2_pos m) + e <= 1023 ->
  exists m' e', binary_round_aux prec emax sx (Zpos m) e l = S754_finite sx m' e'.
Proof.
  intros He HX. unfold binary_round_aux.
  destruct (shr_fexp_exponent m e 1023 l) as (m1 & r1 & s1 & e1 & E1 & H1 & H1');
    [lia | exact HX |].
  rewrite E1. cbn [shr_m].
  destruct (round_nearest_even_digits m1 (loc_of_shr_record (Build_shr_record (Zpos m1) r1 s1)))
    as (m2 & E2 & H2).
  rewrite E2.
  destruct (shr_fexp_exponent m2 e1 1024 loc_Exact)
    as (m3 & r3 & s3 & e3 & E3 & H3 & H3'); [lia | lia |].
  rewrite E3. cbn [shr_m].
  assert (Hle : (e3 <=? emax - prec) = true)
    by (apply Z.leb_le; unfold fexp, emin, prec, emax in *; lia).
  rewrite Hle. now exists m3, e3.
Qed.

Lemma binary_round_finite (sx : bool) (m : positive) :
  Zpos m < 2 ^ 1023 ->
  exists m' e', binary_round prec emax sx m 0 = S754_finite sx m' e'.
Proof.
  intros Hm. apply digits2_pos_le in Hm; [|lia].
  unfold binary_round, shl_align.
  destruct (fexp prec emax (Zpos (digits2_pos m) + 0) - 0) as [|p|p] eqn:E.
  - apply binary_round_aux_finite; unfold emin, prec, emax; lia.
  - apply binary_round_aux_finite; unfold emin, prec, emax; lia.
  - apply binary_round_aux_finite.
    + unfold fexp, emin, prec, emax in *. lia.
    + assert (Hlt : Zpos (Pos.iter xO m p)
                    < 2 ^ (Zpos (digits2_pos m) + Zpos p)).
      { rewrite iter_xO, Z.pow_add_r by lia.
        pose proof (digits2_pos_upper m).
        apply Z.mul_lt_mono_pos_r; [apply Z.pow_pos_nonneg; lia | assumption]. }
      apply digits2_pos_le in Hlt; [|lia].
      unfold fexp, emin, prec, emax in *. lia.
Qed.

(** Every integer below [2 ^ 1023] in absolute value has a float. *)
Lemma float_of_int_in_range (n : Z) :
  Z.abs n < 2 ^ 1023 -> exists x, float_of_int n = Ok x.
Proof.
  intros Hn. unfold float_of_int.
  destruct n as [|p|p]; cbn [binary_normalize].
  - now eexists.
  - destruct (binary_round_finite false p) as (m' & e' & ->); [lia|].
    now eexists.
  - destruct (binary_round_finite true p) as (m' & e' & ->);
      [cbn [Z.abs] in Hn; lia|].
    now eexists.
Qed.

(** C9 fails as stated: a count that is too large for a float makes
    [float(self.success)] raise [OverflowError], which is not caught, also
    when the total is zero. *)
Lemma get_percent_overflow :
  0 <= 2 ^ 1024 /\
  get_percent (mk_test_result (2 ^ 1024) 0) = Raise OverflowError.
Proof. split; [lia | vm_compute; reflexivity]. Qed.

(** C9, amended: [ZeroDivisionError] never leaves [get_percent]; for
    counts that [float] converts the percentage is [0.0] when the total is
    zero and the float quotient times [100.] otherwise; and [float]
    converts every count below [2 ^ 1023] in absolute value. *)
Theorem get_percent_correct (r : test_result) :
  get_percent r <> Raise ZeroDivisionError /\
  (forall s t : float,
     float_of_int (success r) = Ok s ->
     float_of_int (total r) = Ok t ->
     get_percent r
     = Ok (if total r =? 0 then float_0
           else float_mul (SFdiv prec emax s t) float_100)) /\
  (Z.abs (success r) < 2 ^ 1023 ->
   Z.abs (total r) < 2 ^ 1023 ->
   exists s t : float,
     float_of_int (success r) = Ok s /\ float_of_int (total r) = Ok t).
Proof.
  split; [|split].
  - unfold get_percent, float_of_int, float_div.
    destruct (binary_normalize prec emax (success r) 0 false);
      cbn [bind]; try discriminate;
      destruct (binary_normalize prec emax (total r) 0 false);
      cbn [bind float_is_zero]; discriminate.
  - intros s t Hs Ht. unfold get_percent, float_div. rewrite Hs, Ht.
    cbn [bind]. rewrite (float_of_int_zero _ _ Ht).
    now destruct (total r =? 0).
  - intros Hs Ht.
    destruct (float_of_int_in_range _ Hs) as [s Es].
    destruct (float_of_int_in_range _ Ht) as [t Et].
    now exists s, t.
Qed.

Lemma get_percent_correct_witness :
  get_percent (mk_test_result 1 3)
  = Ok (S754_finite false 4691249611844266 (-47)) /\
  get_percent (mk_test_result 5 0) = Ok float_0 /\
  exists s t : float,
    float_of_int (success (mk_test_result 1 3)) = Ok s /\
    float_of_int (total (mk_test_result 1 3)) = Ok t.
Proof.
  split; [|split].
  - exact (proj1 (proj2 (get_percent_correct (mk_test_result 1 3)))
             (S754_finite false 4503599627370496 (-52))
             (S754_finite false 6755399441055744 (-51))
             eq_refl eq_refl).
  - exact (proj1 (proj2 (get_percent_correct (mk_test_result 5 0)))
             (S754_finite false 5629499534213120 (-50))
             (S754_zero false)
             eq_refl eq_refl).
  - apply (proj2 (proj2 (get_percent_correct (mk_test_result 1 3))));
      cbn [success total Z.abs]; lia.
Defined.

(** ** The scenarios of the specification *)

Example scanner_scenario :
  test_module_init 4 {[ "foo.f90" := scenario_source ]} "foo.f90"
  = Ok (mk_test_module "foo.f90" "foo_test" false false
          [mk_test_subroutine "test_alpha" "checks alpha"]).
Proof. vm_compute. reflexivity. Qed.

Example result_parsing_scenario :
  parse_output_file
    (mk_test_suite [] [] None None (mk_test_result 0 0) (mk_test_result 0 0)
       (Some "driver.out") None None None)
    (mk_world {[ "driver.out" := String.concat "" passed_output ]} [])
  = Ok (mk_test_suite [] [] None None (mk_test_result 9 10) (mk_test_result 3 4)
          (Some "driver.out") (Some passed_output) (Some true) (Some [])).
Proof. vm_compute. reflexivity. Qed.

Example multi_file_scenario :
  option_map get_driver_lines
    (match test_suite_init 5 two_files (PyList ["a.f90"; "b.f90"]) with
     | Ok s => Some s
     | _ => None
     end)
  = Some
      ["program tests"; "";
       "  ! Driver program for FRUIT unit tests in:";
       "  ! a.f90"; "  ! b.f90"; "";
       "  ! Generated by FRUITPy."; "";
       "  use fruit"; "  use a"; "  use b"; "";
       "  call init_fruit"; "  call setup"; "";
       "  ! a.f90:";
       "  call run_test_case(test_one," +:+ dquote +:+ "first" +:+ dquote +:+ ")";
       "";
       "  ! b.f90:";
       "  call run_test_case(test_two," +:+ dquote +:+ "test_two" +:+ dquote +:+ ")";
       "";
       "  call fruit_summary"; "  call fruit_finalize"; ""; "end program tests"].
Proof. vm_compute. reflexivity. Qed.

(** * Further properties *)

(** ** The modules of a suite *)

Lemma test_module_init_filename (fuel : nat) (fs : filesystem) (path : string)
    (md : test_module) :
  test_module_init fuel fs path = Ok md -> test_filename md = path.
Proof.
  unfold test_module_init. destruct (open fs path) as [f| |]; cbn [bind];
    [|discriminate|discriminate].
  destruct (parse_test_module_name fuel f) as [[modname f']| |]; cbn [bind];
    [|discriminate|discriminate].
  destruct (parse_subroutines fuel f') as [st| |]; cbn [bind];
    [|discriminate|discriminate].
  now intros [= <-].
Qed.

Lemma parse_filenames (fuel : nat) (fs : filesystem) (filenames : list string) :
  forall acc mods,
    parse fuel fs filenames acc = Ok mods ->
    map test_filename mods = map test_filename acc ++ filenames.
Proof.
  induction filenames as [|path rest IH]; intros acc mods H.
  - cbn [parse] in H. injection H as <-. now rewrite app_nil_r.
  - cbn [parse] in H.
    destruct (test_module_init fuel fs path) as [md| |] eqn:E; cbn [bind] in H;
      [|discriminate|discriminate].
    rewrite (IH _ _ H), map_app. cbn [map].
    rewrite (test_module_init_filename _ _ _ _ E), <- app_assoc. reflexivity.
Qed.

(** X1: a suite that is built from a list of file names has one module
    for each name of the list, in the order of the list; built from a
    single file name it has the one module of that file. *)
Theorem test_suite_modules_in_order (fuel : nat) (fs : filesystem) :
  (forall (l : list string) (s : test_suite),
     test_suite_init fuel fs (PyList l) = Ok s ->
     map test_filename (test_modules s) = l /\
     get_num_test_modules s = Z.of_nat (List.length l)) /\
  (forall (path : string) (s : test_suite),
     test_suite_init fuel fs (PyStr path) = Ok s ->
     map test_filename (test_modules s) = [path] /\
     get_num_test_modules s = 1).
Proof.
  assert (H : forall (l : list string) (s : test_suite),
             (do mods <- parse fuel fs l [] ;
              Ok (mk_test_suite l mods None None (mk_test_result 0 0)
                    (mk_test_result 0 0) None None None None)) = Ok s ->
             map test_filename (test_modules s) = l /\
             get_num_test_modules s = Z.of_nat (List.length l)).
  { intros l s H.
    destruct (parse fuel fs l []) as [mods| |] eqn:E; cbn [bind] in H;
      [|discriminate|discriminate].
    injection H as <-. cbn [test_modules].
    apply parse_filenames in E. cbn [map app] in E. split; [exact E|].
    unfold get_num_test_modules. cbn [test_modules].
    now rewrite <- E, length_map. }
  split.
  - intros l s Hs. exact (H l s Hs).
  - intros path s Hs. exact (H [path] s Hs).
Qed.

Lemma test_suite_modules_in_order_witness :
  test_suite_init 5 two_files (PyList ["a.f90"; "b.f90"]) = Ok two_files_suite /\
  map test_filename (test_modules two_files_suite) = ["a.f90"; "b.f90"] /\
  get_num_test_modules two_files_suite = 2.
Proof.
  split; [vm_compute; reflexivity|].
  apply (proj1 (test_suite_modules_in_order 5 two_files)
           ["a.f90"; "b.f90"] two_files_suite).
  vm_compute. reflexivity.
Defined.

Lemma parse_missing_file (fuel : nat) (fs : filesystem) (before : list string)
    (path : string) (after : list string) :
  Forall (fun p => exists md, test_module_init fuel fs p = Ok md) before ->
  (fs !! path : option file) = None ->
  forall acc, parse fuel fs (before ++ path :: after) acc = Raise IOError.
Proof.
  intros Hb Hp. induction Hb as [|p before [md Hmd] _ IH]; intros acc.
  - cbn [app parse]. unfold test_module_init, open. now rewrite Hp.
  - cbn [app parse]. rewrite Hmd. cbn [bind]. apply IH.
Qed.

(** X2: when the files before it are scanned and one file is missing, the
    construction of the suite raises [IOError], whatever follows. *)
Theorem test_suite_init_missing_file (fuel : nat) (fs : filesystem)
    (before : list string) (path : string) (after : list string) :
  Forall (fun p => exists md, test_module_init fuel fs p = Ok md) before ->
  (fs !! path : option file) = None ->
  test_suite_init fuel fs (PyList (before ++ path :: after)) = Raise IOError.
Proof.
  intros Hb Hp. unfold test_suite_init.
  now rewrite (parse_missing_file fuel fs before path after Hb Hp).
Qed.

Lemma test_suite_init_missing_file_witness :
  test_suite_init 5 two_files (PyList (["a.f90"] ++ "c.f90" :: ["b.f90"]))
  = Raise IOError.
Proof.
  apply (test_suite_init_missing_file 5 two_files ["a.f90"] "c.f90" ["b.f90"]).
  - constructor; [|constructor]. eexists. vm_compute. reflexivity.
  - vm_compute. reflexivity.
Defined.

(** ** What the scanner registers *)

Lemma before_bracket_no_bracket (s : string) :
  Py.contains "(" (before_bracket s) = false.
Proof.
  induction s as [|c s IH]; [reflexivity|]. cbn [before_bracket].
  destruct (Ascii.eqb_spec c "("%char) as [->|Hc]; [reflexivity|].
  cbn [Py.contains String.prefix].
  destruct (ascii_dec "(" c) as [<-|_]; [congruence | exact IH].
Qed.

Lemma subroutine_declaration_no_bracket (line subname : string) :
  subroutine_declaration line = Ok (Some subname) ->
  Py.contains "(" subname = false.
Proof.
  unfold subroutine_declaration. cbv zeta.
  destruct (_ && _)%bool; [|discriminate].
  destruct (getitem _ 1) as [token| |]; cbn [bind]; try discriminate.
  rewrite truncate_before_bracket. intros [= <-].
  apply before_bracket_no_bracket.
Qed.

Lemma parse_subroutine_well_named (fuel : nat) (f f' : file) (line : string)
    (st st' : subroutine_state) :
  parse_subroutine fuel f line st = Ok (st', f') ->
  Forall well_named (st_subroutines st) ->
  Forall well_named (st_subroutines st').
Proof.
  unfold parse_subroutine.
  destruct (subroutine_declaration line) as [[subname|]| |] eqn:Hd;
    cbn [bind]; try discriminate; [|now intros [= <- <-]].
  unfold register_subroutine.
  destruct (subroutine_type subname) as [[| |]|] eqn:Ht;
    try (now intros [= <- <-]).
  destruct (readline f) as [l f1].
  destruct (blank_line_loop fuel l f1) as [[next f2]| |]; cbn [bind];
    try discriminate.
  intros [= <- <-] Hst. cbn [st_subroutines].
  apply Forall_app. split; [exact Hst|]. constructor; [|constructor].
  split; [exact Ht|]. cbn [name].
  exact (subroutine_declaration_no_bracket _ _ Hd).
Qed.

Lemma subroutines_loop_well_named (fuel : nat) : forall line f st st',
  subroutines_loop fuel line f st = Ok st' ->
  Forall well_named (st_subroutines st) ->
  Forall well_named (st_subroutines st').
Proof.
  induction fuel as [|fuel IH]; intros line f st st' H Hst; [discriminate|].
  cbn [subroutines_loop] in H.
  destruct (String.eqb line ""); [now injection H as <-|].
  destruct (Py.contains "subroutine" (Py.lower line)).
  - destruct (parse_subroutine fuel f line st) as [[st1 f1]| |] eqn:E;
      cbn [bind] in H; try discriminate.
    destruct (readline f1) as [l f2].
    exact (IH _ _ _ _ H (parse_subroutine_well_named _ _ _ _ _ _ E Hst)).
  - cbn [bind] in H. destruct (readline f) as [l f2].
    exact (IH _ _ _ _ H Hst).
Qed.

(** X3: every test case of a scanned module has a name that classifies as
    a test, with the prefix [test_] in any case, and holds no opening
    bracket. *)
Theorem test_module_well_named (fuel : nat) (fs : filesystem) (path : string)
    (md : test_module) :
  test_module_init fuel fs path = Ok md ->
  Forall well_named (subroutines md).
Proof.
  unfold test_module_init. destruct (open fs path) as [f| |]; cbn [bind];
    [|discriminate|discriminate].
  destruct (parse_test_module_name fuel f) as [[modname f']| |]; cbn [bind];
    [|discriminate|discriminate].
  destruct (parse_subroutines fuel f') as [st| |] eqn:E; cbn [bind];
    [|discriminate|discriminate].
  intros [= <-]. cbn [subroutines]. unfold parse_subroutines in E.
  destruct (readline f') as [l f2].
  exact (subroutines_loop_well_named _ _ _ _ _ E (List.Forall_nil _)).
Qed.

Lemma test_module_well_named_witness :
  Forall well_named
    [mk_test_subroutine "test_alpha" "checks alpha"].
Proof.
  apply (test_module_well_named 4 {[ "foo.f90" := scenario_source ]} "foo.f90"
           (mk_test_module "foo.f90" "foo_test" false false
              [mk_test_subroutine "test_alpha" "checks alpha"])).
  vm_compute. reflexivity.
Defined.

(** ** Sources that are scanned to the end *)

Lemma readlines_nil (f : file) : readlines f = [] -> f = "".
Proof.
  intros H. destruct f as [|c f]; [reflexivity|].
  now rewrite readlines_step in H.
Qed.

Lemma subroutine_declaration_ends (line : string) :
  subroutine_declaration line <> OutOfFuel.
Proof.
  unfold subroutine_declaration. cbv zeta.
  destruct (_ && _)%bool; [|discriminate].
  unfold getitem. now destruct (Py.index _ 1).
Qed.

(** Before a line that is not blank come blank lines and a first line
    that is not blank. *)
Lemma first_not_blank (lines : list string) (final : string) :
  all_space final = false ->
  exists blanks next rest,
    lines ++ [final] = blanks ++ next :: rest /\
    Forall (fun b => all_space b = true) blanks /\
    all_space next = false /\
    (rest = [] \/ exists rest', rest = rest' ++ [final]) /\
    (List.length blanks + List.length rest <= List.length lines)%nat.
Proof.
  intros Hf. induction lines as [|l lines IH].
  - exists [], final, []. cbn. repeat split; auto.
  - destruct (all_space l) eqn:El.
    + destruct IH as (blanks & next & rest & E & Hb & Hn & Hr & Hlen).
      exists (l :: blanks), next, rest. cbn [app List.length].
      rewrite E. repeat split; auto. lia.
    + exists [], l, (lines ++ [final]). cbn [app List.length].
      repeat split; auto.
      * right. now exists lines.
      * rewrite length_app. cbn. lia.
Qed.

Lemma scan_continues (final : string) (fuel : nat) :
  (forall line f st lines,
     line :: readlines f = lines ++ [final] ->
     (List.length lines + 1 < fuel)%nat ->
     subroutines_loop fuel line f st <> OutOfFuel) ->
  forall f st rest,
    readlines f = rest ->
    rest = [] \/ (exists rest', rest = rest' ++ [final]) ->
    (List.length rest < fuel)%nat ->
    (let '(l, f') := readline f in subroutines_loop fuel l f' st) <> OutOfFuel.
Proof.
  intros IH f st rest Hf [->|[rest' ->]] Hfuel.
  - apply readlines_nil in Hf. subst f. cbn [readline].
    destruct fuel as [|fuel]; [cbn in Hfuel; lia|]. discriminate.
  - assert (Hc : exists l ls, rest' ++ [final] = l :: ls)
      by (destruct rest'; cbn; eauto).
    destruct Hc as (l & ls & Hc). rewrite Hc in Hf.
    destruct (readlines_cons _ _ _ Hf) as (f' & Hr & Hls). rewrite Hr.
    apply (IH l f' st rest'); [now rewrite Hls|].
    rewrite length_app in Hfuel. cbn in Hfuel. lia.
Qed.

(** The loop over the subroutines ends when the last line of the source is
    neither blank nor a line that mentions [subroutine]. *)
Lemma subroutines_loop_ends (final : string) :
  closing_line final ->
  forall fuel line f st lines,
    line :: readlines f = lines ++ [final] ->
    (List.length lines + 1 < fuel)%nat ->
    subroutines_loop fuel line f st <> OutOfFuel.
Proof.
  intros [Hblank Hsub]. induction fuel as [|fuel IH];
    intros line f st lines E Hfuel; [lia|].
  cbn [subroutines_loop]. destruct (String.eqb line ""); [discriminate|].
  destruct (Py.contains "subroutine" (Py.lower line)) eqn:Hc.
  - destruct lines as [|l0 lines]; cbn [app] in E; injection E as -> E;
      [congruence|]. cbn [List.length] in Hfuel.
    unfold parse_subroutine.
    pose proof (subroutine_declaration_ends l0) as Hd.
    destruct (subroutine_declaration l0) as [[subname|]| |]; cbn [bind];
      try discriminate; try congruence.
    + unfold register_subroutine.
      destruct (subroutine_type subname) as [[| |]|];
        try (cbn [bind]; apply (scan_continues final fuel IH f _ _ E);
             [right; now exists lines | rewrite length_app; cbn; lia]).
      destruct (first_not_blank lines final Hblank)
        as (blanks & next & rest & Es & Hb & Hn & Hr & Hlen).
      rewrite Es in E.
      assert (Hcons : exists l ls, blanks ++ next :: rest = l :: ls)
        by (destruct blanks; cbn; eauto).
      destruct Hcons as (l & ls & Hcons). rewrite Hcons in E.
      destruct (readlines_cons _ _ _ E) as (f1 & Hr1 & Hls). rewrite Hr1.
      destruct (blank_line_loop_skips blanks next rest Hb Hn fuel l f1)
        as (f2 & Hloop & Hrest); [now rewrite Hls | lia |].
      rewrite Hloop. cbn [bind].
      apply (scan_continues final fuel IH f2 _ rest Hrest Hr). lia.
    + apply (scan_continues final fuel IH f _ _ E);
        [right; now exists lines | rewrite length_app; cbn; lia].
  - cbn [bind]. destruct lines as [|l0 lines]; cbn [app] in E;
      injection E as -> E.
    + apply (scan_continues final fuel IH f _ _ E); [now left | cbn in *; lia].
    + apply (scan_continues final fuel IH f _ _ E);
        [right; now exists lines | rewrite length_app; cbn in *; lia].
Qed.

(** X4: a source that has a module line and whose last line, after the
    module line, is neither blank nor a line that mentions [subroutine]
    is always scanned to an end: with more fuel than the source has lines
    the construction of the module returns or raises. *)
Theorem test_module_init_ends (fuel : nat) (fs : filesystem) (path : string)
    (f : file) (skipped : list string) (found : string) (body : list string)
    (final : string) :
  (fs !! path : option file) = Some f ->
  readlines f = skipped ++ found :: body ++ [final] ->
  Forall no_module skipped ->
  Py.contains "module" (Py.lower found) = true ->
  closing_line final ->
  (List.length (readlines f) < fuel)%nat ->
  test_module_init fuel fs path <> OutOfFuel.
Proof.
  intros Hp Hf Hs Hfound Hfinal Hfuel. rewrite Hf in Hfuel.
  rewrite length_app in Hfuel. cbn [List.length] in Hfuel.
  rewrite length_app in Hfuel. cbn [List.length] in Hfuel.
  unfold test_module_init, open. rewrite Hp. cbn [bind].
  unfold parse_test_module_name.
  assert (Hc : exists l ls, skipped ++ found :: body ++ [final] = l :: ls)
    by (destruct skipped; cbn; eauto).
  destruct Hc as (l & ls & Hc). rewrite Hc in Hf.
  destruct (readlines_cons _ _ _ Hf) as (f1 & Hr & Hls). rewrite Hr.
  destruct (module_line_loop_skips skipped found (body ++ [final]) Hs Hfound
              fuel l f1) as (f2 & Hloop & Hrest); [now rewrite Hls | lia |].
  rewrite Hloop. cbn [bind].
  destruct (getitem _ 1) as [modname| |] eqn:Eg; cbn [bind]; try discriminate.
  - unfold parse_subroutines.
    pose proof (scan_continues final fuel
                  (subroutines_loop_ends final Hfinal fuel) f2
                  (mk_subroutine_state false false []) _ Hrest) as Hk.
    destruct (readline f2) as [l2 f3].
    destruct (subroutines_loop fuel l2 f3 _) as [st| |]; cbn [bind];
      try discriminate.
    exfalso. apply Hk; [right; now exists body | | reflexivity].
    rewrite length_app. cbn. lia.
  - unfold getitem in Eg. now destruct (Py.index _ 1).
Qed.

Lemma test_module_init_ends_witness :
  test_module_init 5 {[ "foo.f90" := scenario_source ]} "foo.f90" <> OutOfFuel.
Proof.
  apply (test_module_init_ends 5 {[ "foo.f90" := scenario_source ]} "foo.f90"
           scenario_source [] ("module foo_test" +:+ nl)
           ["subroutine test_alpha()" +:+ nl; nl] ("! checks alpha" +:+ nl)).
  - vm_compute. reflexivity.
  - reflexivity.
  - constructor.
  - reflexivity.
  - split; reflexivity.
  - apply Nat.ltb_lt. vm_compute. reflexivity.
Defined.

(** ** The driver program *)

Lemma prefix_append_self (p x : string) : String.prefix p (p +:+ x) = true.
Proof.
  induction p as [|c p IH]; [apply prefix_empty|]. cbn [append String.prefix].
  now destruct (ascii_dec c c).
Qed.

Lemma filter_map_none {A} (p : string -> bool) (g : A -> string) (l : list A) :
  (forall a, p (g a) = false) -> List.filter p (map g l) = [].
Proof.
  intros H. induction l as [|a l IH]; [reflexivity|].
  cbn [map List.filter]. now rewrite H.
Qed.

Lemma filter_map_all {A} (p : string -> bool) (g : A -> string) (l : list A) :
  (forall a, p (g a) = true) -> List.filter p (map g l) = map g l.
Proof.
  intros H. induction l as [|a l IH]; [reflexivity|].
  cbn [map List.filter]. now rewrite H, IH.
Qed.

(** X5: the lines of the driver that run a test case are the test cases
    of the modules, module after module, each module in its own order,
    and nothing else. *)
Theorem driver_runs_test_cases_in_order (s : test_suite) :
  List.filter is_run_test_case (get_driver_lines s)
  = map run_test_case_line (flat_map subroutines (test_modules s)).
Proof.
  unfold get_driver_lines. cbv zeta. rewrite !List.filter_app.
  rewrite (filter_map_none is_run_test_case
             (fun md => "  ! " +:+ Py.strip (test_filename md)))
    by reflexivity.
  rewrite (filter_map_none is_run_test_case
             (fun md => "  use " +:+ test_module_name md))
    by reflexivity.
  replace (List.filter is_run_test_case
             (if get_setup s then ["  call setup"] else []))
    with (@nil string) by (now destruct (get_setup s)).
  replace (List.filter is_run_test_case
             (if get_teardown s then ["  call teardown"] else []))
    with (@nil string) by (now destruct (get_teardown s)).
  replace (List.filter is_run_test_case
             ["program tests"; ""; "  ! Driver program for FRUIT unit tests in:"])
    with (@nil string) by reflexivity.
  replace (List.filter is_run_test_case
             [""; "  ! Generated by FRUITPy."; ""; "  use fruit"])
    with (@nil string) by reflexivity.
  replace (List.filter is_run_test_case [""; "  call init_fruit"])
    with (@nil string) by reflexivity.
  replace (List.filter is_run_test_case
             ["  call fruit_summary"; "  call fruit_finalize"; "";
              "end program tests"])
    with (@nil string) by reflexivity.
  replace (List.filter is_run_test_case [""]) with (@nil string)
    by reflexivity.
  cbn [app]. rewrite app_nil_r.
  generalize (1 <? get_num_test_modules s).
  induction (test_modules s) as [|md mods IH]; intros several; [reflexivity|].
  cbn [flat_map]. rewrite !List.filter_app, map_app, IH.
  f_equal.
  replace (List.filter is_run_test_case
             (if several
              then ["  ! " +:+ Py.strip (test_filename md) +:+ ":"] else []))
    with (@nil string) by (now destruct several).
  replace (List.filter is_run_test_case [""]) with (@nil string)
    by reflexivity.
  cbn [app]. rewrite app_nil_r.
  apply (filter_map_all is_run_test_case run_test_case_line).
  intros sub. apply prefix_append_self.
Qed.



(** ** The output file *)

Lemma string_length_append (a b : string) :
  String.length (a +:+ b) = (String.length a + String.length b)%nat.
Proof. induction a as [|c a IH]; cbn; [reflexivity | now rewrite IH]. Qed.

Lemma readline_not_empty (f : file) : f <> "" -> fst (readline f) <> "".
Proof.
  destruct f as [|c f]; [congruence|]. intros _. cbn [readline].
  destruct (Ascii.eqb c Py.newline); [discriminate|].
  now destruct (readline f).
Qed.

Lemma readline_shorter (f : file) :
  f <> "" -> (String.length (snd (readline f)) < String.length f)%nat.
Proof.
  intros H. pose proof (readline_not_empty f H) as Hl.
  pose proof (readline_append f) as E.
  destruct (readline f) as [l r]. cbn [fst snd] in *.
  rewrite <- E, string_length_append. destruct l; [congruence|cbn; lia].
Qed.

Lemma concat_cons (x : string) (l : list string) :
  String.concat "" (x :: l) = x +:+ String.concat "" l.
Proof. destruct l; cbn [String.concat]; [now rewrite append_empty_r | reflexivity]. Qed.

(** Joining the lines of a text gives the text back. *)
Lemma concat_readlines (n : nat) : forall f,
  (String.length f <= n)%nat -> String.concat "" (readlines f) = f.
Proof.
  induction n as [|n IH]; intros f Hn.
  - destruct f; [reflexivity | cbn in Hn; lia].
  - destruct f as [|c f]; [reflexivity|].
    rewrite readlines_step, concat_cons by discriminate.
    pose proof (readline_shorter (String c f) ltac:(discriminate)) as Hs.
    rewrite IH by lia. apply readline_append.
Qed.

(** X7: after the output file has been read, [output] is the text of the
    file, character for character, and the empty text when there is no
    output file. *)
Theorem get_output_is_file_content (s : test_suite) (w : world) (o : string) :
  outputfile s = Some o ->
  (do s1 <- get_output_lines s w ; get_output s1)
  = Ok (default "" (files w !! o)).
Proof.
  intros Ho. unfold get_output_lines. rewrite Ho. cbn [getattr bind].
  destruct (files w !! o) as [content|]; cbn [bind default];
    unfold get_output; cbn [set_output_lines output_lines getattr bind];
    [|reflexivity].
  unfold Py.join. now rewrite (concat_readlines (String.length content)).
Qed.

Lemma get_output_is_file_content_witness :
  (do s1 <- get_output_lines awaiting_suite
              (mk_world {[ "driver.out" := String.concat "" passed_output ]} []) ;
   get_output s1)
  = Ok (String.concat "" passed_output).
Proof.
  etransitivity.
  - apply (get_output_is_file_content awaiting_suite
             (mk_world {[ "driver.out" := String.concat "" passed_output ]} [])
             "driver.out").
    reflexivity.
  - vm_compute. reflexivity.
Defined.

Lemma prefix_line (p : string) : forall x b,
  newline_free p = true ->
  String.prefix p (x +:+ nl +:+ b) = String.prefix p x.
Proof.
  induction p as [|d p IH]; intros x b Hp.
  - now rewrite !prefix_empty.
  - cbn [newline_free] in Hp. apply andb_prop in Hp as [Hd Hp].
    apply negb_true_iff in Hd. destruct x as [|c x].
    + cbn. destruct (ascii_dec d Py.newline) as [->|_]; [|reflexivity].
      now rewrite Ascii.eqb_refl in Hd.
    + cbn [append String.prefix]. destruct (ascii_dec d c); [|reflexivity].
      now apply IH.
Qed.

Lemma contains_line (p : string) (b : string) :
  newline_free p = true ->
  forall a,
    Py.contains p (a +:+ nl +:+ b) = (Py.contains p a || Py.contains p b)%bool.
Proof.
  intros Hp. induction a as [|c a IH].
  - change ("" +:+ nl +:+ b) with (String Py.newline b).
    cbn [Py.contains].
    change (String Py.newline b) with ("" +:+ nl +:+ b).
    rewrite (prefix_line p "" b Hp).
    now destruct (String.prefix p "").
  - change (String c a +:+ nl +:+ b) with (String c (a +:+ nl +:+ b)).
    cbn [Py.contains].
    change (String c (a +:+ nl +:+ b)) with (String c a +:+ nl +:+ b).
    rewrite (prefix_line p (String c a) b Hp), IH.
    now destruct (String.prefix p (String c a)).
Qed.

Lemma readline_shape (f : file) :
  f <> "" ->
  (exists a, fst (readline f) = a +:+ nl) \/ snd (readline f) = "".
Proof.
  induction f as [|c f IH]; [congruence|]. intros _. cbn [readline].
  destruct (Ascii.eqb_spec c Py.newline) as [->|Hc].
  - left. now exists "".
  - destruct f as [|d f]; [now right|].
    destruct (IH ltac:(discriminate)) as [[a Ha]|Hr];
      destruct (readline (String d f)) as [l r]; cbn [fst snd] in *.
    + left. exists (String c a). now rewrite Ha.
    + now right.
Qed.

Lemma contains_in_lines (p : string) :
  newline_free p = true ->
  Py.contains p "" = false ->
  forall n f,
    (String.length f <= n)%nat ->
    existsb (Py.contains p) (readlines f) = Py.contains p f.
Proof.
  intros Hp He. induction n as [|n IH]; intros f Hn.
  - destruct f; [now rewrite He | cbn in Hn; lia].
  - destruct f as [|c f]; [now rewrite He|].
    rewrite readlines_step by discriminate. cbn [existsb].
    pose proof (readline_shorter (String c f) ltac:(discriminate)) as Hs.
    pose proof (readline_append (String c f)) as E.
    pose proof (readline_shape (String c f) ltac:(discriminate)) as Hsh.
    rewrite IH by lia.
    destruct (readline (String c f)) as [l r]. cbn [fst snd] in *.
    rewrite <- E. destruct Hsh as [[a ->]| ->].
    + rewrite append_assoc, (contains_line p r Hp a).
      replace (a +:+ nl) with (a +:+ nl +:+ "")
        by (now rewrite append_empty_r).
      rewrite (contains_line p "" Hp a), He. now rewrite orb_false_r.
    + now rewrite append_empty_r, He, orb_false_r.
Qed.

(** X9: the success flag says whether the text of the output file holds
    [SUCCESSFUL!] anywhere. *)
Theorem get_success_is_containment (s : test_suite) (w : world)
    (o content : string) :
  outputfile s = Some o ->
  (files w !! o : option file) = Some content ->
  exists s2,
    (do s1 <- get_output_lines s w ; get_success s1) = Ok s2 /\
    suite_success s2 = Some (Py.contains "SUCCESSFUL!" content).
Proof.
  intros Ho Hc. unfold get_output_lines. rewrite Ho. cbn [getattr bind].
  rewrite Hc. cbn [bind]. unfold get_success.
  cbn [set_output_lines output_lines getattr bind].
  eexists. split; [reflexivity|]. cbn [set_success suite_success].
  f_equal.
  apply (contains_in_lines "SUCCESSFUL!" eq_refl eq_refl
           (String.length content)).
  lia.
Qed.

Lemma get_success_is_containment_witness :
  exists s2,
    (do s1 <- get_output_lines awaiting_suite
                (mk_world {[ "driver.out" := String.concat "" passed_output ]} []) ;
     get_success s1) = Ok s2 /\
    suite_success s2 = Some true.
Proof.
  apply (get_success_is_containment awaiting_suite
           (mk_world {[ "driver.out" := String.concat "" passed_output ]} [])
           "driver.out" (String.concat "" passed_output)).
  - reflexivity.
  - vm_compute. reflexivity.
Defined.

(** ** Builds and runs that produce nothing *)

Lemma isfile_lookup (w : world) (path : string) :
  isfile w path = match files w !! path with Some _ => true | None => false end.
Proof.
  unfold isfile. destruct (files w !! path) as [content|].
  - apply bool_decide_eq_true_2. now exists content.
  - apply bool_decide_eq_false_2. intros [content H]. discriminate H.
Qed.

(** Before the build command runs, the path of the executable is free. *)
Lemma stale_executable_removed (w : world) (e : string) :
  (if isfile w e then remove w e else w) = mk_world (delete e (files w)) (calls w).
Proof.
  rewrite isfile_lookup. destruct (files w !! e) eqn:E; [reflexivity|].
  rewrite (delete_id _ _ E). now destruct w.
Qed.

Lemma build_unfold (env : environment) (s : test_suite) (w : world)
    (d build_command : string) :
  driver s = Some d ->
  build env s w build_command
  = Ok (isfile (call env (mk_world (delete (exe_path env d) (files w)) (calls w))
                  build_command) (exe_path env d),
        set_exe s (exe_path env d),
        call env (mk_world (delete (exe_path env d) (files w)) (calls w))
          build_command).
Proof.
  intros Hd. unfold build, exe_path. rewrite Hd. cbn [getattr bind].
  destruct (splitext env d) as [e ext]. cbn [fst].
  now rewrite stale_executable_removed.
Qed.

(** X10: a build command that leaves the path of the executable alone
    makes [build] return false, also when an executable of an earlier
    build was there: it is removed first, and is gone afterwards. *)
Theorem build_without_executable (env : environment) (s : test_suite)
    (w : world) (d build_command : string) :
  driver s = Some d ->
  (forall fs : filesystem,
     shell env build_command fs !! exe_path env d = fs !! exe_path env d) ->
  exists w',
    build env s w build_command = Ok (false, set_exe s (exe_path env d), w') /\
    files w' !! exe_path env d = None /\
    calls w' = calls w ++ [build_command].
Proof.
  intros Hd Hshell. rewrite (build_unfold env s w d build_command Hd).
  exists (call env (mk_world (delete (exe_path env d) (files w)) (calls w))
            build_command).
  split; [|split; [|reflexivity]].
  - f_equal. f_equal. f_equal. rewrite isfile_lookup. unfold call.
    cbn [files]. now rewrite Hshell, lookup_delete_eq.
  - unfold call. cbn [files]. now rewrite Hshell, lookup_delete_eq.
Qed.

Lemma build_without_executable_witness :
  exists w',
    build idle_env awaiting_suite stale_world "make"
    = Ok (false, set_exe awaiting_suite (exe_path idle_env "driver.f90"), w') /\
    files w' !! exe_path idle_env "driver.f90" = None /\
    calls w' = calls stale_world ++ ["make"].
Proof.
  apply (build_without_executable idle_env awaiting_suite stale_world
           "driver.f90" "make").
  - reflexivity.
  - reflexivity.
Defined.

(** A driver path that is not empty and can be opened for writing is
    written; any other path raises [IOError]. *)
Lemma write_succeeds (env : environment) (s : test_suite) (w : world)
    (d : string) :
  d <> "" ->
  writable env d = true ->
  write env s w d
  = Ok (set_driver s d,
        mk_world (<[d := Py.join (String Py.newline EmptyString)
                            (get_driver_lines (set_driver s d))]> (files w))
                 (calls w)).
Proof.
  intros Hd Hw. unfold write, write_file. apply String.eqb_neq in Hd.
  now rewrite Hd, Hw.
Qed.

Lemma build_run_unwritable_driver (env : environment) (s : test_suite)
    (w : world) (d build_command : string) :
  test_modules s <> [] ->
  d = "" \/ writable env d = false ->
  build_run env s w d build_command = Raise IOError.
Proof.
  intros Hm Hd. unfold build_run, get_num_test_modules.
  destruct (test_modules s) as [|md mods] eqn:E; [congruence|].
  cbn [List.length]. destruct (Z.ltb_spec 0 (Z.of_nat (S (List.length mods))));
    [|lia].
  unfold write, write_file. destruct Hd as [->|Hw]; [reflexivity|].
  rewrite Hw. now rewrite andb_false_r.
Qed.

(** X12: when the driver can be written and the build command leaves the
    path of the executable alone, [build_run] on a suite with modules
    returns false after that one command: the driver is written, the
    build is tried, nothing is run. *)
Theorem build_run_stops_after_failed_build (env : environment)
    (s : test_suite) (w : world) (d build_command : string) :
  test_modules s <> [] ->
  d <> "" ->
  writable env d = true ->
  (forall fs : filesystem,
     shell env build_command fs !! exe_path env d = fs !! exe_path env d) ->
  exists w',
    build_run env s w d build_command
    = Ok (false, set_exe (set_driver s d) (exe_path env d), w') /\
    calls w' = calls w ++ [build_command].
Proof.
  intros Hm Hne Hw Hshell. unfold build_run, get_num_test_modules.
  destruct (test_modules s) as [|md mods] eqn:E; [congruence|].
  cbn [List.length]. destruct (Z.ltb_spec 0 (Z.of_nat (S (List.length mods))));
    [|lia].
  rewrite (write_succeeds env s w d Hne Hw). cbn [bind].
  erewrite (build_unfold _ _ _ d build_command); [|reflexivity].
  cbn [bind]. rewrite isfile_lookup. unfold call at 1. cbn [files].
  rewrite Hshell, lookup_delete_eq. now eexists.
Qed.

Lemma build_run_stops_after_failed_build_witness :
  exists w',
    build_run idle_env two_files_suite (mk_world two_files []) "driver.f90" "make"
    = Ok (false,
          set_exe (set_driver two_files_suite "driver.f90")
            (exe_path idle_env "driver.f90"), w') /\
    calls w' = calls (mk_world two_files []) ++ ["make"].
Proof.
  apply (build_run_stops_after_failed_build idle_env two_files_suite
           (mk_world two_files []) "driver.f90" "make").
  - discriminate.
  - discriminate.
  - reflexivity.
  - reflexivity.
Defined.

(** X11: a driver path without an extension is also the path of the
    executable, so [build_run], once it has written the driver, removes it
    before the build command runs; when the command does not write that
    path, the driver is gone in the end. *)
Theorem build_run_removes_driver_without_extension (env : environment)
    (s : test_suite) (w : world) (d build_command : string) :
  test_modules s <> [] ->
  d <> "" ->
  writable env d = true ->
  fst (splitext env d) = d ->
  String.eqb (platform env) "win32" = false ->
  (forall fs : filesystem, shell env build_command fs !! d = fs !! d) ->
  exists s' w',
    build_run env s w d build_command = Ok (false, s', w') /\
    files w' !! d = None.
Proof.
  intros Hm Hne Hw Hd Hp Hshell. unfold build_run, get_num_test_modules.
  destruct (test_modules s) as [|md mods] eqn:E; [congruence|].
  cbn [List.length]. destruct (Z.ltb_spec 0 (Z.of_nat (S (List.length mods))));
    [|lia].
  rewrite (write_succeeds env s w d Hne Hw). cbn [bind].
  assert (He : exe_path env d = d) by (unfold exe_path; now rewrite Hp).
  erewrite (build_unfold _ _ _ d build_command); [|reflexivity].
  rewrite He. cbn [bind]. rewrite isfile_lookup. unfold call at 1. cbn [files].
  rewrite Hshell, lookup_delete_eq. eexists _, _. split; [reflexivity|].
  unfold call. cbn [files]. now rewrite Hshell, lookup_delete_eq.
Qed.

Lemma build_run_removes_driver_without_extension_witness :
  exists s' w',
    build_run idle_env two_files_suite (mk_world two_files []) "driver" "make"
    = Ok (false, s', w') /\
    files w' !! "driver" = None.
Proof.
  apply (build_run_removes_driver_without_extension idle_env two_files_suite
           (mk_world two_files []) "driver" "make").
  - discriminate.
  - discriminate.
  - reflexivity.
  - reflexivity.
  - reflexivity.
  - reflexivity.
Defined.

(** X8: when the command that runs the executable leaves no output file,
    [run] raises nothing and returns false: the output is empty, there
    are no messages, and the counts stay as they were. *)
Theorem run_without_output (env : environment) (s : test_suite) (w : world)
    (e d : string) :
  exe s = Some e ->
  driver s = Some d ->
  (shell env (run_command env e (fst (splitext env d) +:+ ".out")) (files w)
     !! (fst (splitext env d) +:+ ".out") : option file) = None ->
  exists s',
    run env s w
    = Ok (false, s',
          call env w (run_command env e (fst (splitext env d) +:+ ".out"))) /\
    output_lines s' = Some [] /\ messages s' = Some [] /\
    asserts s' = asserts s /\ cases s' = cases s.
Proof.
  intros He Hd Hout. unfold run, run_command in *. rewrite He, Hd.
  destruct (String.eqb (os_name env) "posix"); cbn [bind getattr];
    destruct (splitext env d) as [basename ext]; cbn [fst] in *;
    cbn [bind]; unfold parse_output_file, get_output_lines;
    cbn [set_outputfile outputfile getattr bind call files];
    rewrite Hout; cbn [bind]; eexists; split; reflexivity || (repeat split).
Qed.

Lemma run_without_output_witness :
  exists s',
    run idle_env awaiting_suite (mk_world ∅ [])
    = Ok (false, s',
          call idle_env (mk_world ∅ [])
            (run_command idle_env "driver"
               (fst (splitext idle_env "driver.f90") +:+ ".out"))) /\
    output_lines s' = Some [] /\ messages s' = Some [] /\
    asserts s' = asserts awaiting_suite /\ cases s' = cases awaiting_suite.
Proof.
  apply (run_without_output idle_env awaiting_suite (mk_world ∅ [])
           "driver" "driver.f90").
  - reflexivity.
  - reflexivity.
  - reflexivity.
Defined.

(** ** Summary lines that are not as expected *)

Lemma list_index_none (l : list string) (x : string) :
  ~ In x l -> Py.list_index l x = None.
Proof.
  induction l as [|y l IH]; intros H; [reflexivity|]. cbn [Py.list_index].
  destruct (String.eqb_spec y x) as [->|_]; [exfalso; apply H; now left|].
  rewrite IH; [reflexivity|]. intros Hin. apply H. now right.
Qed.

(** X13: a summary line without a slash token raises [ValueError], and a
    summary line whose only slash token comes first raises [IndexError]. *)
Theorem parse_summary_line_malformed (line : string) :
  (~ In "/" (Py.split line) -> parse_summary_line line = Raise ValueError) /\
  (forall rest,
     Py.split line = "/" :: rest -> ~ In "/" rest ->
     parse_summary_line line = Raise IndexError).
Proof.
  split.
  - intros H. unfold parse_summary_line.
    rewrite list_index_none; [reflexivity|]. now rewrite <- in_rev.
  - intros rest Hs Hn. unfold parse_summary_line. rewrite Hs.
    cbn [rev]. rewrite list_index_first by (now rewrite <- in_rev).
    cbn [bind]. rewrite length_rev. unfold getitem, Py.index.
    cbn [List.length].
    destruct (Z.ltb_spec (- (Z.of_nat (List.length rest) + 1) - 1) 0); [|lia].
    destruct (Z.ltb_spec (Z.of_nat (S (List.length rest))
                          + (- (Z.of_nat (List.length rest) + 1) - 1)) 0);
      [reflexivity | lia].
Qed.

Lemma parse_summary_line_malformed_witness :
  parse_summary_line "no counts here" = Raise ValueError /\
  parse_summary_line "/ 10" = Raise IndexError.
Proof.
  split.
  - apply (proj1 (parse_summary_line_malformed "no counts here")).
    intros [H|[H|[H|[]]]]; discriminate H.
  - apply (proj2 (parse_summary_line_malformed "/ 10") ["10"]);
      [reflexivity|]. intros [H|[]]; discriminate H.
Defined.



(** X15: when the header line of the statistics is the last line of the
    output, [get_statistics] raises [IndexError]. *)
Theorem get_statistics_header_last (s : test_suite) (before : list string)
    (header : string) (a b : Z) :
  output_lines s = Some (before ++ [header]) ->
  Forall no_statistics before ->
  Py.contains "Successful asserts / total asserts" header = true ->
  summary_of header a b ->
  get_statistics s = Raise IndexError.
Proof.
  intros Hl Hb Hh Ha. unfold get_statistics. rewrite Hl. cbn [getattr bind].
  generalize s. clear Hl s. induction Hb as [|l before Hno _ IH]; intros s.
  - cbn [app]. rewrite statistics_loop_header by exact Hh.
    now rewrite (parse_summary_line_correct _ _ _ Ha).
  - cbn [app statistics_loop]. unfold no_statistics in Hno. rewrite Hno.
    apply IH.
Qed.

Lemma get_statistics_header_last_witness :
  get_statistics cut_output_suite = Raise IndexError.
Proof.
  apply (get_statistics_header_last cut_output_suite
           ["x SUCCESSFUL! y" +:+ nl]
           ("Successful asserts / total asserts : 9 / 10" +:+ nl) 9 10).
  - reflexivity.
  - repeat constructor.
  - reflexivity.
  - exists ["Successful"; "asserts"; "/"; "total"; "asserts"; ":"], "9", "10", [].
    repeat split; try reflexivity. intros [E|[]]; discriminate E.
Defined.

(** ** The imports of the driver *)

(** X16: the driver imports [fruit] and then the module of every source
    file, one import for each file in the order of the files, also when
    two files declare a module of the same name. *)
Theorem driver_imports_in_order (s : test_suite) :
  List.filter is_use (get_driver_lines s)
  = "  use fruit" :: map (fun md => "  use " +:+ test_module_name md)
                         (test_modules s).
Proof.
  unfold get_driver_lines. cbv zeta. rewrite !List.filter_app.
  rewrite (filter_map_none is_use
             (fun md => "  ! " +:+ Py.strip (test_filename md)))
    by reflexivity.
  rewrite (filter_map_all is_use
             (fun md => "  use " +:+ test_module_name md))
    by (intros md; apply prefix_append_self).
  replace (List.filter is_use (if get_setup s then ["  call setup"] else []))
    with (@nil string) by (now destruct (get_setup s)).
  replace (List.filter is_use
             (if get_teardown s then ["  call teardown"] else []))
    with (@nil string) by (now destruct (get_teardown s)).
  replace (List.filter is_use
             ["program tests"; ""; "  ! Driver program for FRUIT unit tests in:"])
    with (@nil string) by reflexivity.
  replace (List.filter is_use
             [""; "  ! Generated by FRUITPy."; ""; "  use fruit"])
    with ["  use fruit"] by reflexivity.
  replace (List.filter is_use [""; "  call init_fruit"])
    with (@nil string) by reflexivity.
  replace (List.filter is_use
             ["  call fruit_summary"; "  call fruit_finalize"; "";
              "end program tests"])
    with (@nil string) by reflexivity.
  replace (List.filter is_use [""]) with (@nil string) by reflexivity.
  replace (List.filter is_use
             (flat_map
                (fun md =>
                   (if 1 <? get_num_test_modules s
                    then ["  ! " +:+ Py.strip (test_filename md) +:+ ":"]
                    else [])
                   ++ map (fun sub =>
                        "  call run_test_case(" +:+ name sub +:+ "," +:+ dquote
                          +:+ description sub +:+ dquote +:+ ")")
                        (subroutines md)
                   ++ [""]) (test_modules s)))
    with (@nil string).
  - cbn [app]. now rewrite !app_nil_r.
  - generalize (1 <? get_num_test_modules s).
    induction (test_modules s) as [|md mods IH]; intros several;
      [reflexivity|].
    cbn [flat_map]. rewrite !List.filter_app, <- IH.
    replace (List.filter is_use
               (if several
                then ["  ! " +:+ Py.strip (test_filename md) +:+ ":"] else []))
      with (@nil string) by (now destruct several).
    rewrite (filter_map_none is_use
               (fun sub => "  call run_test_case(" +:+ name sub +:+ ","
                  +:+ dquote +:+ description sub +:+ dquote +:+ ")"))
      by reflexivity.
    reflexivity.
Qed.

(** ** Runs that produce an output *)

Lemma statistics_loop_counts (before : list string) (header next : string)
    (after : list string) (a b c d : Z) :
  Forall no_statistics before ->
  Py.contains "Successful asserts / total asserts" header = true ->
  Forall no_statistics (next :: after) ->
  summary_of header a b ->
  summary_of next c d ->
  forall s,
    statistics_loop (before ++ header :: next :: after) s
    = Ok (set_cases (set_asserts s (mk_test_result a b)) (mk_test_result c d)).
Proof.
  intros Hb Hh Hn Ha Hc. induction Hb as [|l before Hno _ IH]; intros s.
  - cbn [app]. rewrite statistics_loop_header by exact Hh.
    rewrite (parse_summary_line_correct _ _ _ Ha). cbn [bind].
    rewrite getitem_head. cbn [bind].
    rewrite (parse_summary_line_correct _ _ _ Hc). cbn [bind].
    now apply statistics_loop_no_header.
  - cbn [app statistics_loop]. unfold no_statistics in Hno. rewrite Hno.
    apply IH.
Qed.

Lemma parse_output_file_reads (s : test_suite) (w : world)
    (o content : string) (before : list string) (header next : string)
    (after : list string) (a b c d : Z) :
  outputfile s = Some o ->
  (files w !! o : option file) = Some content ->
  readlines content = before ++ header :: next :: after ->
  Forall no_statistics before ->
  Py.contains "Successful asserts / total asserts" header = true ->
  Forall no_statistics (next :: after) ->
  summary_of header a b ->
  summary_of next c d ->
  parse_output_file s w
  = Ok (set_cases
          (set_asserts
             (set_messages
                (set_success (set_output_lines s (readlines content))
                   (Py.contains "SUCCESSFUL!" content))
                (if Py.contains "SUCCESSFUL!" content then []
                 else scan_messages (readlines content)))
             (mk_test_result a b))
          (mk_test_result c d)).
Proof.
  intros Ho Hout Hl Hb Hh Hn Ha Hc.
  pose proof (contains_in_lines "SUCCESSFUL!" eq_refl eq_refl
                (String.length content) content (le_n _)) as Hs.
  unfold parse_output_file, get_output_lines. rewrite Ho.
  cbn [getattr bind]. rewrite Hout. cbn [bind].
  unfold get_success. cbn [set_output_lines output_lines getattr bind].
  rewrite Hs. unfold get_messages.
  cbn [set_success suite_success output_lines getattr bind].
  assert (Hstat : forall s0,
             statistics_loop (readlines content) s0
             = Ok (set_cases (set_asserts s0 (mk_test_result a b))
                     (mk_test_result c d)))
    by (intros s0; rewrite Hl;
        now apply statistics_loop_counts).
  destruct (Py.contains "SUCCESSFUL!" content); cbn [negb getattr bind];
    unfold get_statistics;
    cbn [set_messages set_success set_output_lines output_lines getattr bind];
    now rewrite Hstat.
Qed.

(** The suite after [run] has read an output of that form. *)
Lemma run_with_output (env : environment) (s : test_suite) (w : world)
    (e d content : string) (before : list string) (header next : string)
    (after : list string) (a b c d' : Z) :
  exe s = Some e ->
  driver s = Some d ->
  (shell env (run_command env e (output_path env d)) (files w)
     !! output_path env d : option file) = Some content ->
  readlines content = before ++ header :: next :: after ->
  Forall no_statistics before ->
  Py.contains "Successful asserts / total asserts" header = true ->
  Forall no_statistics (next :: after) ->
  summary_of header a b ->
  summary_of next c d' ->
  run env s w
  = Ok (Py.contains "SUCCESSFUL!" content,
        set_cases
          (set_asserts
             (set_messages
                (set_success
                   (set_output_lines (set_outputfile s (output_path env d))
                      (readlines content))
                   (Py.contains "SUCCESSFUL!" content))
                (if Py.contains "SUCCESSFUL!" content then []
                 else scan_messages (readlines content)))
             (mk_test_result a b))
          (mk_test_result c d'),
        call env w (run_command env e (output_path env d))).
Proof.
  intros He Hd Hout Hl Hb Hh Hn Ha Hc.
  unfold run, run_command, output_path in *. rewrite He, Hd.
  destruct (String.eqb (os_name env) "posix"); cbn [bind getattr];
    destruct (splitext env d) as [basename ext]; cbn [fst] in *;
    cbn [bind];
    (erewrite (parse_output_file_reads _ _ _ content before header next
                 after a b c d');
     [ | reflexivity | exact Hout | exact Hl | exact Hb | exact Hh
       | exact Hn | exact Ha | exact Hc ]);
    reflexivity.
Qed.

(** X17: when the command that runs the executable leaves an output file
    with one header line of statistics followed by a line, [run] invokes
    that one command and returns whether the output holds [SUCCESSFUL!];
    the counts are those of the two lines, and the messages are empty on
    success. *)
Theorem run_reads_output (env : environment) (s : test_suite) (w : world)
    (e d content : string) (before : list string) (header next : string)
    (after : list string) (a b c d' : Z) :
  exe s = Some e ->
  driver s = Some d ->
  (shell env (run_command env e (output_path env d)) (files w)
     !! output_path env d : option file) = Some content ->
  readlines content = before ++ header :: next :: after ->
  Forall no_statistics before ->
  Py.contains "Successful asserts / total asserts" header = true ->
  Forall no_statistics (next :: after) ->
  summary_of header a b ->
  summary_of next c d' ->
  exists s',
    run env s w
    = Ok (Py.contains "SUCCESSFUL!" content, s',
          call env w (run_command env e (output_path env d))) /\
    asserts s' = mk_test_result a b /\
    cases s' = mk_test_result c d' /\
    messages s'
    = Some (if Py.contains "SUCCESSFUL!" content then []
            else scan_messages (readlines content)).
Proof.
  intros He Hd Hout Hl Hb Hh Hn Ha Hc.
  rewrite (run_with_output env s w e d content before header next after
             a b c d' He Hd Hout Hl Hb Hh Hn Ha Hc).
  eexists. split; [reflexivity|]. repeat split.
Qed.

Lemma run_reads_output_witness :
  exists s',
    run passing_env built_suite (mk_world {[ "driver" := "binary" ]} [])
    = Ok (Py.contains "SUCCESSFUL!" (String.concat "" passed_output), s',
          call passing_env (mk_world {[ "driver" := "binary" ]} [])
            (run_command passing_env "driver"
               (output_path passing_env "driver.f90"))) /\
    asserts s' = mk_test_result 9 10 /\
    cases s' = mk_test_result 3 4 /\
    messages s'
    = Some (if Py.contains "SUCCESSFUL!" (String.concat "" passed_output)
            then []
            else scan_messages (readlines (String.concat "" passed_output))).
Proof.
  apply (run_reads_output passing_env built_suite
           (mk_world {[ "driver" := "binary" ]} [])
           "driver" "driver.f90" (String.concat "" passed_output)
           ["x SUCCESSFUL! y" +:+ nl]
           ("Successful asserts / total asserts : 9 / 10" +:+ nl)
           ("Successful cases / total cases : 3 / 4" +:+ nl) []).
  - reflexivity.
  - reflexivity.
  - vm_compute. reflexivity.
  - reflexivity.
  - repeat constructor.
  - reflexivity.
  - repeat constructor.
  - exists ["Successful"; "asserts"; "/"; "total"; "asserts"; ":"], "9", "10", [].
    repeat split; try reflexivity. intros [E|[]]; discriminate E.
  - exists ["Successful"; "cases"; "/"; "total"; "cases"; ":"], "3", "4", [].
    repeat split; try reflexivity. intros [E|[]]; discriminate E.
Defined.

(** ** The whole pipeline *)

(** X18: on a suite with modules, when the driver can be written, the
    build command produces the executable and the run leaves an output
    file with one header line of statistics followed by a line,
    [build_run] invokes the build command and then the run command,
    nothing else, and returns whether the output holds [SUCCESSFUL!],
    with the counts of the two lines. *)
Theorem build_run_composes (env : environment) (s : test_suite) (w : world)
    (d build_command content : string) (before : list string)
    (header next : string) (after : list string) (a b c d' : Z) :
  test_modules s <> [] ->
  d <> "" ->
  writable env d = true ->
  is_Some (files_after_build env s w d build_command !! exe_path env d) ->
  (shell env (run_command env (exe_path env d) (output_path env d))
     (files_after_build env s w d build_command)
     !! output_path env d : option file) = Some content ->
  readlines content = before ++ header :: next :: after ->
  Forall no_statistics before ->
  Py.contains "Successful asserts / total asserts" header = true ->
  Forall no_statistics (next :: after) ->
  summary_of header a b ->
  summary_of next c d' ->
  exists s' w',
    build_run env s w d build_command
    = Ok (Py.contains "SUCCESSFUL!" content, s', w') /\
    calls w'
    = calls w ++ [build_command;
                  run_command env (exe_path env d) (output_path env d)] /\
    asserts s' = mk_test_result a b /\
    cases s' = mk_test_result c d'.
Proof.
  intros Hm Hne Hw [binary Hexe] Hout Hl Hb Hh Hn Ha Hc.
  unfold build_run, get_num_test_modules.
  destruct (test_modules s) as [|md mods] eqn:E; [congruence|].
  cbn [List.length]. destruct (Z.ltb_spec 0 (Z.of_nat (S (List.length mods))));
    [|lia].
  rewrite (write_succeeds env s w d Hne Hw). cbn [bind].
  erewrite (build_unfold _ _ _ d build_command); [|reflexivity].
  cbn [bind]. rewrite isfile_lookup. unfold call at 1. cbn [files].
  unfold files_after_build in Hexe, Hout. rewrite Hexe.
  erewrite (run_with_output env _ _ (exe_path env d) d content before header
              next after a b c d');
    [ | reflexivity | reflexivity | exact Hout | exact Hl | exact Hb
      | exact Hh | exact Hn | exact Ha | exact Hc ].
  eexists _, _. split; [reflexivity|]. split; [|split; reflexivity].
  unfold call. cbn [calls]. now rewrite <- app_assoc.
Qed.

Lemma build_run_composes_witness :
  exists s' w',
    build_run passing_env two_files_suite (mk_world two_files [])
      "driver.f90" "make"
    = Ok (Py.contains "SUCCESSFUL!" (String.concat "" passed_output), s', w') /\
    calls w'
    = calls (mk_world two_files [])
      ++ ["make";
          run_command passing_env (exe_path passing_env "driver.f90")
            (output_path passing_env "driver.f90")] /\
    asserts s' = mk_test_result 9 10 /\
    cases s' = mk_test_result 3 4.
Proof.
  apply (build_run_composes passing_env two_files_suite
           (mk_world two_files []) "driver.f90" "make"
           (String.concat "" passed_output)
           ["x SUCCESSFUL! y" +:+ nl]
           ("Successful asserts / total asserts : 9 / 10" +:+ nl)
           ("Successful cases / total cases : 3 / 4" +:+ nl) []).
  - discriminate.
  - discriminate.
  - reflexivity.
  - exists "binary". vm_compute. reflexivity.
  - vm_compute. reflexivity.
  - reflexivity.
  - repeat constructor.
  - reflexivity.
  - repeat constructor.
  - exists ["Successful"; "asserts"; "/"; "total"; "asserts"; ":"], "9", "10", [].
    repeat split; try reflexivity. intros [E|[]]; discriminate E.
  - exists ["Successful"; "cases"; "/"; "total"; "cases"; ":"], "3", "4", [].
    repeat split; try reflexivity. intros [E|[]]; discriminate E.
Defined.

(** ** The line after a test declaration *)

(** X19: the line that gives a test case its description is used up: the
    loop over the subroutines goes on with the line after it, so a
    declaration that directly follows the declaration of a test is not
    seen. *)
Theorem description_line_not_scanned (fuel : nat) (f : file)
    (line subname : string) (st : subroutine_state) (blanks : list string)
    (next : string) (rest : list string) :
  line <> "" ->
  Py.contains "subroutine" (Py.lower line) = true ->
  subroutine_declaration line = Ok (Some subname) ->
  subroutine_type subname = Some Test ->
  readlines f = blanks ++ next :: rest ->
  Forall (fun b => all_space b = true) blanks ->
  all_space next = false ->
  (List.length blanks < fuel)%nat ->
  exists f',
    readlines f' = rest /\
    subroutines_loop (S fuel) line f st
    = (let '(l, f'') := readline f' in
       subroutines_loop fuel l f''
         (mk_subroutine_state (st_setup st) (st_teardown st)
            (st_subroutines st
             ++ [mk_test_subroutine subname
                   (if Py.contains "!" next
                    then Py.strip (after_comment_mark next)
                    else subname)]))).
Proof.
  intros Hne Hc Hd Ht Hf Hb Hn Hfuel.
  assert (Hcons : exists l ls, blanks ++ next :: rest = l :: ls)
    by (destruct blanks; cbn; eauto).
  destruct Hcons as (l & ls & Hcons). rewrite Hcons in Hf.
  destruct (readlines_cons _ _ _ Hf) as (f1 & Hr & Hls).
  destruct (blank_line_loop_skips blanks next rest Hb Hn fuel l f1)
    as (f' & Hloop & Hrest); [now rewrite Hls | exact Hfuel |].
  exists f'. split; [exact Hrest|].
  cbn [subroutines_loop]. apply String.eqb_neq in Hne. rewrite Hne, Hc.
  unfold parse_subroutine. rewrite Hd. cbn [bind].
  unfold register_subroutine. rewrite Ht, Hr, Hloop. cbn [bind].
  now rewrite description_of_line.
Qed.

Lemma description_line_not_scanned_witness :
  exists f',
    readlines f' = ["end module m" +:+ nl] /\
    subroutines_loop 2 ("subroutine test_a" +:+ nl)
      ("subroutine test_b" +:+ nl +:+ "end module m" +:+ nl)
      (mk_subroutine_state false false [])
    = (let '(l, f'') := readline f' in
       subroutines_loop 1 l f''
         (mk_subroutine_state false false
            ([] ++ [mk_test_subroutine "test_a"
                      (if Py.contains "!" ("subroutine test_b" +:+ nl)
                       then Py.strip
                              (after_comment_mark ("subroutine test_b" +:+ nl))
                       else "test_a")]))).
Proof.
  apply (description_line_not_scanned 1
           ("subroutine test_b" +:+ nl +:+ "end module m" +:+ nl)
           ("subroutine test_a" +:+ nl) "test_a"
           (mk_subroutine_state false false [])
           [] ("subroutine test_b" +:+ nl) ["end module m" +:+ nl]).
  - discriminate.
  - reflexivity.
  - reflexivity.
  - reflexivity.
  - reflexivity.
  - constructor.
  - reflexivity.
  - cbn. lia.
Defined.
